(** * mqtt-log-client.py: a shallow embedding and its verified properties

    The program is a callback-driven MQTT logger.  It registers two callbacks
    with a client library, prints every message to the console and appends
    one entry per message to a log file opened in append mode.

    Python values are modelled as follows.
    - [str] is a sequence of Unicode code points: [pystr := list N].
    - [bytes] is [list byte].
    - [int] is [Z]; [bool] is [bool].
    - The console is the list of the arguments of the [print] calls.
    - The log file is its text on disk, the handle's buffer and a trace of
      the operations performed on it.
    - Exceptions are threaded through a state-and-error monad.

    What the outside world does (the clock, whether the dependency can be
    imported or installed, how [connect] ends, what the event loop delivers
    and how it ends) is an oracle [Env]; theorems quantify over it.  Command
    line parsing has succeeded, console and file writes succeed, and Ctrl-C
    arrives where the program waits: inside [connect], or inside the loop
    between two deliveries, so a callback that has started runs to its
    end. *)

From Stdlib Require Import List ZArith NArith Bool Lia String Ascii.
From Stdlib.Strings Require Import Byte.
From Stdlib Require Import DecimalString.
Import ListNotations.

Local Open Scope N_scope.

(* ------------------------------------------------------------------ *)
(** ** Python strings *)

Definition pystr := list N.

(** An ASCII literal of the source, as code points. *)
Definition lit (s : string) : pystr :=
  List.map N_of_ascii (list_ascii_of_string s).

(** [str(z)] for an [int]. *)
Definition str_int (z : Z) : pystr :=
  lit (NilZero.string_of_int (Z.to_int z)).

(** [str(b)] for a [bool]. *)
Definition str_bool (b : bool) : pystr :=
  if b then lit "True" else lit "False".

(** ["-" * 60] *)
Definition separator : pystr := List.repeat 45 60.

Definition LF : N := 10.
Definition CHECK_MARK : N := 0x2713.
Definition BALLOT_X : N := 0x2717.

(* ------------------------------------------------------------------ *)
(** ** [bytes.decode('utf-8')]

    The strict decoder: shortest forms only, no surrogates, nothing above
    U+10FFFF.  [None] stands for [UnicodeDecodeError]. *)

Definition in_range (lo hi c : N) : bool := (lo <=? c) && (c <=? hi).

Definition cont (c : N) : bool := in_range 0x80 0xBF c.

Definition low6 (c : N) : N := N.land c 0x3F.

Fixpoint utf8_decode (bs : list byte) : option pystr :=
  match bs with
  | [] => Some []
  | b0 :: r0 =>
    let c0 := Byte.to_N b0 in
    if c0 <? 0x80 then option_map (cons c0) (utf8_decode r0)
    else if in_range 0xC2 0xDF c0 then
      match r0 with
      | b1 :: r1 =>
        let c1 := Byte.to_N b1 in
        if cont c1
        then option_map (cons (N.shiftl (N.land c0 0x1F) 6 + low6 c1))
                        (utf8_decode r1)
        else None
      | _ => None
      end
    else if in_range 0xE0 0xEF c0 then
      match r0 with
      | b1 :: b2 :: r2 =>
        let c1 := Byte.to_N b1 in
        let c2 := Byte.to_N b2 in
        let lo1 := if c0 =? 0xE0 then 0xA0 else 0x80 in
        let hi1 := if c0 =? 0xED then 0x9F else 0xBF in
        if in_range lo1 hi1 c1 && cont c2
        then option_map
               (cons (N.shiftl (N.land c0 0x0F) 12 + N.shiftl (low6 c1) 6
                      + low6 c2))
               (utf8_decode r2)
        else None
      | _ => None
      end
    else if in_range 0xF0 0xF4 c0 then
      match r0 with
      | b1 :: b2 :: b3 :: r3 =>
        let c1 := Byte.to_N b1 in
        let c2 := Byte.to_N b2 in
        let c3 := Byte.to_N b3 in
        let lo1 := if c0 =? 0xF0 then 0x90 else 0x80 in
        let hi1 := if c0 =? 0xF4 then 0x8F else 0xBF in
        if in_range lo1 hi1 c1 && cont c2 && cont c3
        then option_map
               (cons (N.shiftl (N.land c0 0x07) 18 + N.shiftl (low6 c1) 12
                      + N.shiftl (low6 c2) 6 + low6 c3))
               (utf8_decode r3)
        else None
      | _ => None
      end
    else None
  end.

(* ------------------------------------------------------------------ *)
(** ** [str(b)] for a [bytes] object

    Formatting a [bytes] value inside an f-string yields its literal form:
    [b'...'] with escapes, the quote switching to a double quote when the
    data holds a single quote and no double quote. *)

Definition APOS : N := 39.
Definition DQUOTE : N := 34.
Definition BACKSLASH : N := 92.

Definition hex_digit (d : N) : N :=
  if d <? 10 then 48 + d else 87 + d.

Definition repr_quote (cs : list N) : N :=
  if existsb (N.eqb APOS) cs && negb (existsb (N.eqb DQUOTE) cs)
  then DQUOTE else APOS.

Definition repr_byte (quote c : N) : pystr :=
  if (c =? quote) || (c =? BACKSLASH) then [BACKSLASH; c]
  else if c =? 9 then [BACKSLASH; 116]
  else if c =? 10 then [BACKSLASH; 110]
  else if c =? 13 then [BACKSLASH; 114]
  else if (c <? 32) || (0x7F <=? c)
       then [BACKSLASH; 120; hex_digit (c / 16); hex_digit (c mod 16)]
  else [c].

Definition bytes_repr (bs : list byte) : pystr :=
  let cs := List.map Byte.to_N bs in
  let q := repr_quote cs in
  [98; q] ++ List.flat_map (repr_byte q) cs ++ [q].

(* ------------------------------------------------------------------ *)
(** ** [datetime] and [strftime("%Y-%m-%d %H:%M:%S")] *)

Record DateTime := mkDateTime {
  year : N; month : N; day : N; hour : N; minute : N; second : N
}.

(** The ranges of a [datetime] whose year has four digits.  Below the year
    1000 the width of [%Y] depends on the platform's C library; the
    statements about the timestamp's layout are made within these ranges. *)
Definition valid_datetime (t : DateTime) : bool :=
  in_range 1000 9999 (year t) && in_range 1 12 (month t)
  && in_range 1 31 (day t) && (hour t <? 24) && (minute t <? 60)
  && (second t <? 60).

Definition dec (n : N) : pystr :=
  lit (NilZero.string_of_uint (N.to_uint n)).

(** [%0wd]: decimal, padded with zeros on the left up to width [w]. *)
Definition zero_pad (w : nat) (s : pystr) : pystr :=
  List.repeat 48 (w - List.length s) ++ s.

Definition strftime (t : DateTime) : pystr :=
  zero_pad 4 (dec (year t)) ++ lit "-" ++ zero_pad 2 (dec (month t))
  ++ lit "-" ++ zero_pad 2 (dec (day t)) ++ lit " "
  ++ zero_pad 2 (dec (hour t)) ++ lit ":" ++ zero_pad 2 (dec (minute t))
  ++ lit ":" ++ zero_pad 2 (dec (second t)).

(* ------------------------------------------------------------------ *)
(** ** Messages, connect codes and the outside world *)

(** [msg.payload]: a [bytes] object, or (the [else] branch of the
    [isinstance] test) a value that is already text. *)
Inductive Payload :=
| PBytes (b : list byte)
| PStr (s : pystr).

Record MQTTMessage := mkMessage {
  topic : pystr; qos : Z; retain : bool; payload : Payload
}.

(** The connect code handed to [on_connect]: [rc == 0] looks at its number,
    an f-string at its [str()].  For a plain [int] the two agree. *)
Record ReasonCode := mkReasonCode { rc_value : Z; rc_str : pystr }.

Definition int_rc (z : Z) : ReasonCode := mkReasonCode z (str_int z).

Record Args := mkArgs { broker : pystr; log : pystr; port : Z }.

Inductive Exc :=
| KeyboardInterrupt
| Exception (text : pystr)
| SystemExit (code : Z).

Inductive FileOp :=
| FOpen (path mode : pystr)
| FWrite (s : pystr)
| FFlush
| FClose.

Inductive ClientCall :=
| CConnect (host : pystr) (prt keepalive : Z)
| CSubscribe (filter : pystr)
| CLoopForever
| CDisconnect.

Inductive Handle :=
| NotOpened
| Opened (buf : pystr)
| Closed.

Record World := mkWorld {
  console : list pystr;
  log_disk : pystr;
  log_file : Handle;
  file_trace : list FileOp;
  client_trace : list ClientCall;
  ticks : nat
}.

(** How a blocking library call ends: it returns, Ctrl-C arrives while it
    runs, or it raises an ordinary exception with the given text. *)
Inductive Ending :=
| Normal
| Interrupted
| Failed (text : pystr).

Inductive Event :=
| EvConnect (rc : ReasonCode)
| EvMessage (msg : MQTTMessage).

Record Env := mkEnv {
  clock : nat -> DateTime;
  importable : bool;
  pip_ok : bool;
  connect_ending : Ending;
  deliveries : list Event;
  loop_ending : Ending
}.

(* ------------------------------------------------------------------ *)
(** ** The state-and-exception monad *)

Inductive Result (A : Type) :=
| Ok (a : A)
| Raise (e : Exc).
Arguments Ok {A} a.
Arguments Raise {A} e.

Definition M (A : Type) := World -> Result A * World.

Definition ret {A} (a : A) : M A := fun w => (Ok a, w).

Definition bind {A B} (m : M A) (k : A -> M B) : M B :=
  fun w => match m w with
           | (Ok a, w') => k a w'
           | (Raise e, w') => (Raise e, w')
           end.

Definition raise {A} (e : Exc) : M A := fun w => (Raise e, w).

Declare Scope py_scope.
Delimit Scope py_scope with py.
Notation "x <- m ;; k" := (bind m (fun x => k))
  (at level 61, m at next level, right associativity) : py_scope.
Notation "m ;; k" := (bind m (fun _ => k))
  (at level 61, right associativity) : py_scope.
Local Open Scope py_scope.

(** [try: body / except KeyboardInterrupt: h1 / except Exception as e: h2].
    [SystemExit] is not an [Exception] and passes through. *)
Definition try_except {A} (body : M A) (on_interrupt : M A)
           (on_exception : pystr -> M A) : M A :=
  fun w => match body w with
           | (Raise KeyboardInterrupt, w') => on_interrupt w'
           | (Raise (Exception e), w') => on_exception e w'
           | r => r
           end.

Definition print (s : pystr) : M unit :=
  fun w => (Ok tt, mkWorld (console w ++ [s]) (log_disk w) (log_file w)
                           (file_trace w) (client_trace w) (ticks w)).

Definition sys_exit {A} (code : Z) : M A := raise (SystemExit code).

Definition client_call (c : ClientCall) : M unit :=
  fun w => (Ok tt, mkWorld (console w) (log_disk w) (log_file w)
                           (file_trace w) (client_trace w ++ [c]) (ticks w)).

Definition set_file (d : pystr) (h : Handle) (op : FileOp) : M unit :=
  fun w => (Ok tt, mkWorld (console w) d h (file_trace w ++ [op])
                           (client_trace w) (ticks w)).

Definition closed_file_error : Exc :=
  Exception (lit "I/O operation on closed file.").

(** [open(path, 'a', encoding='utf-8')]: the text on disk is kept. *)
Definition file_open (path mode : pystr) : M unit :=
  fun w => set_file (log_disk w) (Opened []) (FOpen path mode) w.

(** [log_file.write(s)]: the text goes to the handle's buffer. *)
Definition file_write (s : pystr) : M unit :=
  fun w => match log_file w with
           | Opened buf => set_file (log_disk w) (Opened (buf ++ s)) (FWrite s) w
           | _ => raise closed_file_error w
           end.

(** [log_file.flush()]: the buffer goes to disk, after what is there. *)
Definition file_flush : M unit :=
  fun w => match log_file w with
           | Opened buf => set_file (log_disk w ++ buf) (Opened []) FFlush w
           | _ => raise closed_file_error w
           end.

(** [log_file.close()]: flushes; closing a closed file does nothing. *)
Definition file_close : M unit :=
  fun w => match log_file w with
           | Opened buf => set_file (log_disk w ++ buf) Closed FClose w
           | _ => ret tt w
           end.

Definition finish (e : Ending) : M unit :=
  match e with
  | Normal => ret tt
  | Interrupted => raise KeyboardInterrupt
  | Failed text => raise (Exception text)
  end.

(* ------------------------------------------------------------------ *)
(** ** The program *)

Section Program.

Variable env : Env.

(** [datetime.now()] *)
Definition now : M DateTime :=
  fun w => (Ok (clock env (ticks w)),
            mkWorld (console w) (log_disk w) (log_file w) (file_trace w)
                    (client_trace w) (S (ticks w))).

Definition install_paho_mqtt : M unit :=
  if importable env
  then print (CHECK_MARK :: lit " paho-mqtt is already installed")
  else
    print (lit "Installing paho-mqtt...") ;;
    if pip_ok env
    then print (CHECK_MARK :: lit " Successfully installed paho-mqtt")
    else print (BALLOT_X :: lit " Failed to install paho-mqtt") ;;
         sys_exit 1%Z.

Definition on_connect (rc : ReasonCode) : M unit :=
  if (rc_value rc =? 0)%Z
  then
    print (CHECK_MARK :: lit " Connected to MQTT broker") ;;
    client_call (CSubscribe (lit "#")) ;;
    print (CHECK_MARK :: lit " Subscribed to all topics (#)") ;;
    print separator
  else
    print (BALLOT_X :: lit " Failed to connect, return code: " ++ rc_str rc).

(** The [# Decode payload] step of [on_message]. *)
Definition decode_payload (p : Payload) : pystr :=
  match p with
  | PBytes b =>
    match utf8_decode b with
    | Some s => s
    | None => lit "[Binary data: " ++ str_int (Z.of_nat (List.length b))
              ++ lit " bytes]"
    end
  | PStr s => s
  end.

Definition on_message (msg : MQTTMessage) : M unit :=
  t <- now ;;
  let timestamp := strftime t in
  let payload := decode_payload (payload msg) in
  print (lit "[" ++ timestamp ++ lit "]") ;;
  print (lit "Topic: " ++ topic msg) ;;
  print (lit "QoS: " ++ str_int (qos msg) ++ lit ", Retained: "
         ++ str_bool (retain msg)) ;;
  print (lit "Payload: " ++ payload) ;;
  print separator.

(** [{msg.payload}] inside an f-string: [str()] of the payload as it is. *)
Definition format_payload (p : Payload) : pystr :=
  match p with
  | PBytes b => bytes_repr b
  | PStr s => s
  end.

Definition log_entry (timestamp : pystr) (msg : MQTTMessage) : pystr :=
  lit "[" ++ timestamp ++ lit "] Topic: " ++ topic msg ++ lit ", QoS: "
  ++ str_int (qos msg) ++ lit ", Retained: " ++ str_bool (retain msg)
  ++ lit ", Payload: " ++ format_payload (payload msg) ++ [LF].

Definition log_to_file (msg : MQTTMessage) : M unit :=
  t <- now ;;
  let timestamp := strftime t in
  file_write (log_entry timestamp msg) ;;
  file_flush.

Definition on_message_with_log (msg : MQTTMessage) : M unit :=
  on_message msg ;;
  log_to_file msg.

(** The library's loop hands each delivery to the registered callback; an
    exception raised by a callback leaves the loop. *)
Fixpoint dispatch (evs : list Event) : M unit :=
  match evs with
  | [] => ret tt
  | EvConnect rc :: rest => on_connect rc ;; dispatch rest
  | EvMessage msg :: rest => on_message_with_log msg ;; dispatch rest
  end.

Definition client_connect (host : pystr) (prt keepalive : Z) : M unit :=
  client_call (CConnect host prt keepalive) ;;
  finish (connect_ending env).

Definition client_loop_forever : M unit :=
  client_call CLoopForever ;;
  dispatch (deliveries env) ;;
  finish (loop_ending env).

Definition client_disconnect : M unit := client_call CDisconnect.

Definition main (args : Args) : M unit :=
  install_paho_mqtt ;;
  file_open (log args) (lit "a") ;;
  try_except
    (print (lit "Connecting to MQTT broker at " ++ broker args ++ lit ":"
            ++ str_int (port args) ++ lit "...") ;;
     client_connect (broker args) (port args) 60%Z ;;
     print (lit "Listening for MQTT messages...") ;;
     print (lit "Press Ctrl+C to stop" ++ [LF]) ;;
     client_loop_forever)
    (print (LF :: lit "Disconnecting...") ;;
     client_disconnect ;;
     file_close ;;
     print (lit "Stopped"))
    (fun e =>
     print (lit "Error: " ++ e) ;;
     file_close ;;
     sys_exit 1%Z).

(** A run of the script on a machine whose log file holds [prior]. *)
Definition initial_world (prior : pystr) : World :=
  mkWorld [] prior NotOpened [] [] 0.

Definition run (args : Args) (prior : pystr) : Result unit * World :=
  main args (initial_world prior).

End Program.

(** The status the process ends with: 0 when [main] returns, the argument
    of [sys.exit], 1 for an exception nobody caught, 130 for Ctrl-C nobody
    caught. *)
Definition exit_code (r : Result unit) : Z :=
  match r with
  | Ok _ => 0
  | Raise (SystemExit c) => c
  | Raise (Exception _) => 1
  | Raise KeyboardInterrupt => 130
  end%Z.

Definition exit_status (env : Env) (args : Args) (prior : pystr) : Z :=
  exit_code (fst (run env args prior)).

(* ------------------------------------------------------------------ *)
(** ** Vocabulary of the statements *)

(** The five lines a message puts on the console, in order. *)
Definition console_block (timestamp : pystr) (msg : MQTTMessage)
  : list pystr :=
  [ lit "[" ++ timestamp ++ lit "]";
    lit "Topic: " ++ topic msg;
    lit "QoS: " ++ str_int (qos msg) ++ lit ", Retained: "
      ++ str_bool (retain msg);
    lit "Payload: " ++ decode_payload (payload msg);
    separator ].

(** Number of line feeds in a text. *)
Definition newlines (s : pystr) : nat :=
  List.length (List.filter (N.eqb LF) s).

Definition is_digit (c : N) : bool := in_range 48 57 c.

(** The number a string of decimal digits denotes. *)
Definition digits_value (s : pystr) : N :=
  List.fold_left (fun acc c => 10 * acc + (c - 48)) s 0.

(** [s] is the number [v] written with exactly [w] decimal digits. *)
Definition decimal_field (w : nat) (v : N) (s : pystr) : bool :=
  Nat.eqb (List.length s) w && List.forallb is_digit s
  && (digits_value s =? v).

(** The dependency step lets the program go on. *)
Definition install_ok (env : Env) : bool := importable env || pip_ok env.

(** How the body of [main]'s [try] ends when no callback raises. *)
Definition try_ending (env : Env) : Ending :=
  match connect_ending env with
  | Normal => loop_ending env
  | e => e
  end.

(** The [open] calls of a file trace, and the text of its [write] calls. *)
Fixpoint opens (tr : list FileOp) : list (pystr * pystr) :=
  match tr with
  | [] => []
  | FOpen p m :: rest => (p, m) :: opens rest
  | _ :: rest => opens rest
  end.

Fixpoint written (tr : list FileOp) : pystr :=
  match tr with
  | [] => []
  | FWrite s :: rest => s ++ written rest
  | _ :: rest => written rest
  end.

Fixpoint closes (tr : list FileOp) : nat :=
  match tr with
  | [] => 0
  | FClose :: rest => S (closes rest)
  | _ :: rest => closes rest
  end.

(** What [main] returns, after how the [try] body ends. *)
Definition main_result (e : Ending) : Result unit :=
  match e with
  | Failed _ => Raise (SystemExit 1)
  | _ => Ok tt
  end.

(** What one logged message adds to the file trace. *)
Definition entry_ops (e : pystr) : list FileOp := [FWrite e; FFlush].

(* ------------------------------------------------------------------ *)
(** ** Pure readings of a run

    What a list of deliveries adds to the log, to the console and to the
    client's calls, as functions of the deliveries and of the number [k] of
    clock readings made before.  The theorems below show that the loop
    computes exactly these. *)

Fixpoint entries_of (env : Env) (k : nat) (evs : list Event) : list pystr :=
  match evs with
  | [] => []
  | EvConnect _ :: rest => entries_of env k rest
  | EvMessage msg :: rest =>
    log_entry (strftime (clock env (S k))) msg
    :: entries_of env (S (S k)) rest
  end.

Definition connect_lines (rc : ReasonCode) : list pystr :=
  if (rc_value rc =? 0)%Z
  then [ CHECK_MARK :: lit " Connected to MQTT broker";
         CHECK_MARK :: lit " Subscribed to all topics (#)";
         separator ]
  else [ BALLOT_X :: lit " Failed to connect, return code: " ++ rc_str rc ].

Fixpoint console_of (env : Env) (k : nat) (evs : list Event) : list pystr :=
  match evs with
  | [] => []
  | EvConnect rc :: rest => connect_lines rc ++ console_of env k rest
  | EvMessage msg :: rest =>
    console_block (strftime (clock env k)) msg
    ++ console_of env (S (S k)) rest
  end.

Fixpoint subscriptions (evs : list Event) : list ClientCall :=
  match evs with
  | [] => []
  | EvConnect rc :: rest =>
    (if (rc_value rc =? 0)%Z then [CSubscribe (lit "#")] else [])
    ++ subscriptions rest
  | EvMessage _ :: rest => subscriptions rest
  end.

Fixpoint messages_of (evs : list Event) : list MQTTMessage :=
  match evs with
  | [] => []
  | EvConnect _ :: rest => messages_of rest
  | EvMessage msg :: rest => msg :: messages_of rest
  end.

(** The deliveries a run gets to see: none unless [connect] returns. *)
Definition delivered (env : Env) : list Event :=
  match connect_ending env with
  | Normal => deliveries env
  | _ => []
  end.

Definition install_lines (env : Env) : list pystr :=
  if importable env
  then [ CHECK_MARK :: lit " paho-mqtt is already installed" ]
  else [ lit "Installing paho-mqtt...";
         if pip_ok env
         then CHECK_MARK :: lit " Successfully installed paho-mqtt"
         else BALLOT_X :: lit " Failed to install paho-mqtt" ].

Definition banner (args : Args) : pystr :=
  lit "Connecting to MQTT broker at " ++ broker args ++ lit ":"
  ++ str_int (port args) ++ lit "...".

(** The console lines [main] prints after the [try] body, by its ending. *)
Definition closing_lines (e : Ending) : list pystr :=
  match e with
  | Normal => []
  | Interrupted => [LF :: lit "Disconnecting..."; lit "Stopped"]
  | Failed text => [lit "Error: " ++ text]
  end.

(** Runs the handlers of [main] on the world reached by the [try] body. *)
Ltac run_steps :=
  cbv [finish ret raise bind print client_disconnect client_call
       file_close set_file sys_exit main_result closing_lines
       console log_disk log_file file_trace client_trace ticks
       entries_of flat_map List.concat].

(** A message whose entry cannot span lines: no line feed in the topic,
    and a payload that is [bytes] or a text without line feed. *)
Definition single_line_message (msg : MQTTMessage) : Prop :=
  newlines (topic msg) = 0%nat
  /\ forall s, payload msg = PStr s -> newlines s = 0%nat.

(** The texts of the [write] calls of a file trace, one per call. *)
Fixpoint writes (tr : list FileOp) : list pystr :=
  match tr with
  | [] => []
  | FWrite s :: rest => s :: writes rest
  | _ :: rest => writes rest
  end.

(* ------------------------------------------------------------------ *)
(** ** Classes of payload bytes, and a reader for [bytes] literals *)

Definition is_ascii (x : byte) : bool := Byte.to_N x <? 128.

(** Printable ASCII other than the apostrophe and the backslash. *)
Definition plain_byte (x : byte) : bool :=
  in_range 32 126 (Byte.to_N x)
  && negb (Byte.to_N x =? APOS) && negb (Byte.to_N x =? BACKSLASH).

Definition byte_of_code (c : N) : byte :=
  match Byte.of_N c with
  | Some x => x
  | None => x00
  end.

Definition hex_value (h : N) : N :=
  if in_range 48 57 h then h - 48 else h - 87.

(** Reads the body of a [b'...'] literal up to its closing quote [q],
    undoing the escapes of [repr_byte]. *)
Fixpoint unrepr_body (q : N) (s : pystr) : option (list byte) :=
  match s with
  | [] => None
  | c :: r =>
    if c =? q then match r with [] => Some [] | _ => None end
    else if c =? BACKSLASH then
      match r with
      | e :: r1 =>
        if e =? 120 then
          match r1 with
          | h1 :: h2 :: r2 =>
            option_map
              (cons (byte_of_code (16 * hex_value h1 + hex_value h2)))
              (unrepr_body q r2)
          | _ => None
          end
        else
          let code := if e =? 116 then 9
                      else if e =? 110 then 10
                      else if e =? 114 then 13
                      else e in
          option_map (cons (byte_of_code code)) (unrepr_body q r1)
      | [] => None
      end
    else option_map (cons (byte_of_code c)) (unrepr_body q r)
  end.

Definition bytes_unrepr (s : pystr) : option (list byte) :=
  match s with
  | 98 :: q :: body => unrepr_body q body
  | _ => None
  end.

(** Case analysis on a hypothesis that unfolds one step of [utf8_decode]. *)
Ltac decode_cases H :=
  repeat match type of H with
         | context [if ?c then _ else _] => destruct c
         | context [match ?l with [] => _ | _ :: _ => _ end] => destruct l
         | None = Some _ => discriminate H
         end.

(* ------------------------------------------------------------------ *)
(** ** Sample inputs *)

Definition sample_time : DateTime := mkDateTime 2024 3 9 7 5 0.

Definition msg_text : MQTTMessage :=
  mkMessage (lit "a/b") 1 false (PBytes ["h"%byte; "i"%byte]).

Definition msg_binary : MQTTMessage :=
  mkMessage (lit "a/b") 0 true (PBytes [xff]).

Definition msg_two_lines : MQTTMessage :=
  mkMessage (lit "a" ++ [LF] ++ lit "b") 0 false
            (PBytes ["h"%byte; "i"%byte]).

Definition sample_args : Args := mkArgs (lit "host") (lit "mqtt.log") 1883.

(** The world right after the log file has been opened on an empty file. *)
Definition open_world : World :=
  mkWorld [] [] (Opened []) [FOpen (lit "mqtt.log") (lit "a")] [] 0.

Definition env_with (imp pip : bool) (c : Ending) (evs : list Event)
           (l : Ending) : Env :=
  mkEnv (fun _ => sample_time) imp pip c evs l.

Definition env_interrupted : Env :=
  env_with true true Normal
           [EvConnect (int_rc 0); EvMessage msg_text; EvMessage msg_binary]
           Interrupted.

Definition env_failed : Env :=
  env_with true true Normal [EvConnect (int_rc 0); EvMessage msg_text]
           (Failed (lit "boom")).

Definition env_no_dependency : Env :=
  env_with false false Normal [EvMessage msg_text] Interrupted.

Example strftime_ex :
  strftime (mkDateTime 2024 3 9 7 5 0) = lit "2024-03-09 07:05:00".
Proof. reflexivity. Qed.

Example utf8_decode_ascii :
  utf8_decode ["h"%byte; "i"%byte] = Some (lit "hi").
Proof. reflexivity. Qed.

Example utf8_decode_euro :
  utf8_decode [xe2; x82; xac] = Some [0x20AC].
Proof. reflexivity. Qed.

Example utf8_decode_overlong : utf8_decode [xc0; x80] = None.
Proof. reflexivity. Qed.

Example utf8_decode_surrogate : utf8_decode [xed; xa0; x80] = None.
Proof. reflexivity. Qed.

Example utf8_decode_truncated : utf8_decode [xe2; x82] = None.
Proof. reflexivity. Qed.

Example bytes_repr_ex :
  bytes_repr ["h"%byte; "i"%byte; x0a; xff; x27]
  = lit "b" ++ [DQUOTE] ++ lit "hi\n\xff'" ++ [DQUOTE].
Proof. reflexivity. Qed.

Example bytes_repr_plain : bytes_repr ["h"%byte; "i"%byte] = lit "b'hi'".
Proof. reflexivity. Qed.

(* ------------------------------------------------------------------ *)
(** ** What each callback does to the world *)

Section Callbacks.

Variable env : Env.

Lemma on_message_eq (msg : MQTTMessage) (w : World) :
  on_message env msg w
  = (Ok tt,
     mkWorld (console w
              ++ console_block (strftime (clock env (ticks w))) msg)
             (log_disk w) (log_file w) (file_trace w) (client_trace w)
             (S (ticks w))).
Proof.
  unfold on_message, console_block, bind, now, print; cbn [console log_disk
    log_file file_trace client_trace ticks].
  repeat rewrite <- app_assoc. reflexivity.
Qed.

Lemma log_to_file_eq (msg : MQTTMessage) (w : World) (buf : pystr) :
  log_file w = Opened buf ->
  log_to_file env msg w
  = (Ok tt,
     mkWorld (console w)
             (log_disk w ++ buf
              ++ log_entry (strftime (clock env (ticks w))) msg)
             (Opened [])
             (file_trace w
              ++ entry_ops (log_entry (strftime (clock env (ticks w))) msg))
             (client_trace w) (S (ticks w))).
Proof.
  intros Hopen.
  unfold log_to_file, bind, now, file_write, file_flush, set_file, entry_ops;
    cbn [console log_disk log_file file_trace client_trace ticks].
  rewrite Hopen;
    cbn [console log_disk log_file file_trace client_trace ticks].
  repeat rewrite <- app_assoc. reflexivity.
Qed.

Lemma on_message_with_log_eq (msg : MQTTMessage) (w : World) (buf : pystr) :
  log_file w = Opened buf ->
  on_message_with_log env msg w
  = (Ok tt,
     mkWorld (console w
              ++ console_block (strftime (clock env (ticks w))) msg)
             (log_disk w ++ buf
              ++ log_entry (strftime (clock env (S (ticks w)))) msg)
             (Opened [])
             (file_trace w
              ++ entry_ops
                   (log_entry (strftime (clock env (S (ticks w)))) msg))
             (client_trace w) (S (S (ticks w)))).
Proof.
  intros Hopen. unfold on_message_with_log, bind.
  rewrite on_message_eq.
  rewrite (log_to_file_eq msg _ buf) by exact Hopen.
  reflexivity.
Qed.

Lemma on_connect_file (rc : ReasonCode) (w : World) :
  exists w',
    on_connect rc w = (Ok tt, w')
    /\ log_file w' = log_file w /\ log_disk w' = log_disk w
    /\ file_trace w' = file_trace w
    /\ exists subs,
         client_trace w' = client_trace w ++ subs
         /\ ~ In CDisconnect subs.
Proof.
  unfold on_connect. destruct (rc_value rc =? 0)%Z.
  - eexists. split; [reflexivity|]. cbn. repeat split.
    exists [CSubscribe (lit "#")]. split; [reflexivity|].
    intros [H|[]]; discriminate H.
  - eexists. split; [reflexivity|]. cbn. repeat split.
    exists []. rewrite app_nil_r. split; [reflexivity|]. intros [].
Qed.

(** The loop never fails on a callback: with the log file open and its
    buffer empty, every delivery is handled, each message adds one entry to
    the file, and the buffer is empty again afterwards. *)
Lemma dispatch_spec (evs : list Event) :
  forall w, log_file w = Opened [] ->
  exists w' ents subs,
    dispatch env evs w = (Ok tt, w')
    /\ log_file w' = Opened []
    /\ file_trace w' = file_trace w ++ flat_map entry_ops ents
    /\ log_disk w' = log_disk w ++ List.concat ents
    /\ client_trace w' = client_trace w ++ subs
    /\ ~ In CDisconnect subs.
Proof.
  induction evs as [|ev rest IH]; intros w Hopen.
  - exists w, [], []. cbn. rewrite !app_nil_r. repeat split; auto.
  - destruct ev as [rc|msg]; cbn [dispatch]; unfold bind.
    + destruct (on_connect_file rc w)
        as (w1 & E1 & Hf & Hd & Ht & subs1 & Hc & Hn).
      rewrite E1.
      destruct (IH w1) as (w' & ents & subs & E & Hf' & Ht' & Hd' & Hc' & Hn').
      { rewrite Hf. exact Hopen. }
      exists w', ents, (subs1 ++ subs). rewrite E.
      repeat split; try congruence.
      * rewrite Hc', Hc, app_assoc. reflexivity.
      * intros Hin. apply in_app_or in Hin. tauto.
    + rewrite (on_message_with_log_eq msg w [] Hopen).
      match goal with
      | |- context [dispatch env rest ?w1] =>
        destruct (IH w1 eq_refl)
          as (w' & ents & subs & E & Hf' & Ht' & Hd' & Hc' & Hn')
      end.
      cbn [file_trace log_disk client_trace] in Ht', Hd', Hc'.
      eexists w', (_ :: ents), subs. rewrite E.
      repeat split; auto.
      * rewrite Ht'. cbn [flat_map]. rewrite <- app_assoc. reflexivity.
      * rewrite Hd'. cbn [List.concat app]. rewrite <- app_assoc. reflexivity.
Qed.

End Callbacks.

(* ------------------------------------------------------------------ *)
(** ** Payload text on the two sinks *)

(** What the two sinks receive for a [bytes] payload that is valid UTF-8.
    The payload line of the console block is the decoded string.  The entry
    written to the log file does not carry that string: [log_to_file]
    formats the [bytes] object itself, so the field is its [b'...']
    literal. *)
Lemma valid_utf8_payload_sinks
        (env : Env) (msg : MQTTMessage) (b : list byte) (s : pystr)
        (w : World) (buf : pystr) :
  payload msg = PBytes b ->
  utf8_decode b = Some s ->
  log_file w = Opened buf ->
  exists w',
    on_message_with_log env msg w = (Ok tt, w')
    /\ console w'
       = console w
         ++ [ lit "[" ++ strftime (clock env (ticks w)) ++ lit "]";
              lit "Topic: " ++ topic msg;
              lit "QoS: " ++ str_int (qos msg) ++ lit ", Retained: "
                ++ str_bool (retain msg);
              lit "Payload: " ++ s;
              separator ]
    /\ log_disk w'
       = log_disk w ++ buf
         ++ lit "[" ++ strftime (clock env (S (ticks w)))
         ++ lit "] Topic: " ++ topic msg ++ lit ", QoS: "
         ++ str_int (qos msg) ++ lit ", Retained: "
         ++ str_bool (retain msg) ++ lit ", Payload: " ++ bytes_repr b
         ++ [LF].
Proof.
  intros Hp Hd Hopen. eexists. split.
  - apply on_message_with_log_eq. exact Hopen.
  - cbn [console log_disk]. unfold console_block, log_entry.
    rewrite Hp. cbn [decode_payload format_payload]. rewrite Hd.
    split; reflexivity.
Qed.

Lemma valid_utf8_payload_sinks_witness :
  exists w',
    on_message_with_log env_interrupted msg_text open_world = (Ok tt, w')
    /\ console w'
       = [ lit "[2024-03-09 07:05:00]"; lit "Topic: a/b";
           lit "QoS: 1, Retained: False"; lit "Payload: hi"; separator ]
    /\ log_disk w'
       = lit "[2024-03-09 07:05:00] Topic: a/b, QoS: 1, Retained: False, Payload: b'hi'"
         ++ [LF].
Proof.
  exact (valid_utf8_payload_sinks
           env_interrupted msg_text ["h"%byte; "i"%byte] (lit "hi")
           open_world [] eq_refl eq_refl eq_refl).
Defined.

(** C1 (defect of the code).  The payload [b"hi"] decodes to [hi].  The
    console block shows [Payload: hi], as the claim says; the line written
    to the log file ends in [Payload: b'hi'], not in [Payload: hi].  The
    display path decodes the payload, the log path next to it formats the
    [bytes] object as it is. *)
Theorem C1_log_line_misses_decoded_payload :
  utf8_decode ["h"%byte; "i"%byte] = Some (lit "hi")
  /\ console (snd (on_message_with_log env_interrupted msg_text open_world))
     = [ lit "[2024-03-09 07:05:00]"; lit "Topic: a/b";
         lit "QoS: 1, Retained: False"; lit "Payload: hi"; separator ]
  /\ log_disk (snd (on_message_with_log env_interrupted msg_text open_world))
     = lit "[2024-03-09 07:05:00] Topic: a/b, QoS: 1, Retained: False, Payload: b'hi'"
       ++ [LF]
  /\ log_disk (snd (on_message_with_log env_interrupted msg_text open_world))
     <> lit "[2024-03-09 07:05:00] Topic: a/b, QoS: 1, Retained: False, Payload: hi"
        ++ [LF].
Proof.
  split; [reflexivity|]. split; [reflexivity|]. split; [reflexivity|].
  intros H. vm_compute in H. discriminate H.
Qed.

(** What the two sinks receive for a [bytes] payload of length N that is not
    valid UTF-8.  The payload line of the console block is the placeholder
    [[Binary data: N bytes]].  The entry written to the log file does not
    carry the placeholder: [log_to_file] formats the [bytes] object itself,
    so the field is its [b'...'] literal, with its escapes. *)
Lemma invalid_utf8_payload_sinks
        (env : Env) (msg : MQTTMessage) (b : list byte)
        (w : World) (buf : pystr) :
  payload msg = PBytes b ->
  utf8_decode b = None ->
  log_file w = Opened buf ->
  exists w',
    on_message_with_log env msg w = (Ok tt, w')
    /\ console w'
       = console w
         ++ [ lit "[" ++ strftime (clock env (ticks w)) ++ lit "]";
              lit "Topic: " ++ topic msg;
              lit "QoS: " ++ str_int (qos msg) ++ lit ", Retained: "
                ++ str_bool (retain msg);
              lit "Payload: " ++ lit "[Binary data: "
                ++ str_int (Z.of_nat (List.length b)) ++ lit " bytes]";
              separator ]
    /\ log_disk w'
       = log_disk w ++ buf
         ++ lit "[" ++ strftime (clock env (S (ticks w)))
         ++ lit "] Topic: " ++ topic msg ++ lit ", QoS: "
         ++ str_int (qos msg) ++ lit ", Retained: "
         ++ str_bool (retain msg) ++ lit ", Payload: " ++ bytes_repr b
         ++ [LF].
Proof.
  intros Hp Hd Hopen. eexists. split.
  - apply on_message_with_log_eq. exact Hopen.
  - cbn [console log_disk]. unfold console_block, log_entry.
    rewrite Hp. cbn [decode_payload format_payload]. rewrite Hd.
    split; reflexivity.
Qed.

Lemma invalid_utf8_payload_sinks_witness :
  exists w',
    on_message_with_log env_interrupted msg_binary open_world = (Ok tt, w')
    /\ console w'
       = [ lit "[2024-03-09 07:05:00]"; lit "Topic: a/b";
           lit "QoS: 0, Retained: True";
           lit "Payload: [Binary data: 1 bytes]"; separator ]
    /\ log_disk w'
       = lit "[2024-03-09 07:05:00] Topic: a/b, QoS: 0, Retained: True, Payload: b'\xff'"
         ++ [LF].
Proof.
  exact (invalid_utf8_payload_sinks
           env_interrupted msg_binary [xff] open_world []
           eq_refl eq_refl eq_refl).
Defined.

(** C2 (defect of the code).  The one-byte payload [0xff] is not valid
    UTF-8.  The console block shows the placeholder
    [Payload: [Binary data: 1 bytes]], as the claim says; the line written
    to the log file ends in [Payload: b'\xff'], not in the placeholder.
    The display path substitutes the placeholder, the log path next to it
    formats the [bytes] object as it is. *)
Theorem C2_log_line_misses_placeholder :
  utf8_decode [xff] = None
  /\ console (snd (on_message_with_log env_interrupted msg_binary
                                       open_world))
     = [ lit "[2024-03-09 07:05:00]"; lit "Topic: a/b";
         lit "QoS: 0, Retained: True";
         lit "Payload: [Binary data: 1 bytes]"; separator ]
  /\ log_disk (snd (on_message_with_log env_interrupted msg_binary
                                         open_world))
     = lit "[2024-03-09 07:05:00] Topic: a/b, QoS: 0, Retained: True, Payload: b'\xff'"
       ++ [LF]
  /\ log_disk (snd (on_message_with_log env_interrupted msg_binary
                                         open_world))
     <> lit "[2024-03-09 07:05:00] Topic: a/b, QoS: 0, Retained: True, Payload: [Binary data: 1 bytes]"
        ++ [LF].
Proof.
  split; [reflexivity|]. split; [reflexivity|]. split; [reflexivity|].
  intros H. vm_compute in H. discriminate H.
Qed.

(* ------------------------------------------------------------------ *)
(** ** Line feeds in the formatted pieces *)

Lemma newlines_app (s t : pystr) :
  newlines (s ++ t) = (newlines s + newlines t)%nat.
Proof. unfold newlines. rewrite filter_app, length_app. reflexivity. Qed.

Lemma newlines_uint (u : Decimal.uint) :
  newlines (lit (NilEmpty.string_of_uint u)) = 0%nat.
Proof. induction u; cbn in *; auto. Qed.

Lemma newlines_dec (n : N) : newlines (dec n) = 0%nat.
Proof.
  unfold dec, NilZero.string_of_uint.
  destruct (N.to_uint n); try apply (newlines_uint (_ _)); reflexivity.
Qed.

Lemma newlines_str_int (z : Z) : newlines (str_int z) = 0%nat.
Proof.
  unfold str_int, NilZero.string_of_int.
  destruct (Z.to_int z) as [u|u].
  - unfold NilZero.string_of_uint.
    destruct u; try apply (newlines_uint (_ _)); reflexivity.
  - change (lit (String "-" (NilZero.string_of_uint u)))
      with (45 :: lit (NilZero.string_of_uint u)).
    change (newlines (45 :: lit (NilZero.string_of_uint u)))
      with (newlines (lit (NilZero.string_of_uint u))).
    unfold NilZero.string_of_uint.
    destruct u; try apply (newlines_uint (_ _)); reflexivity.
Qed.

Lemma newlines_str_bool (b : bool) : newlines (str_bool b) = 0%nat.
Proof. destruct b; reflexivity. Qed.

Lemma newlines_zeros (n : nat) : newlines (List.repeat 48 n) = 0%nat.
Proof. induction n; cbn in *; auto. Qed.

Lemma newlines_zero_pad (w : nat) (s : pystr) :
  newlines s = 0%nat -> newlines (zero_pad w s) = 0%nat.
Proof.
  intros H. unfold zero_pad. rewrite newlines_app, newlines_zeros, H.
  reflexivity.
Qed.

Lemma newlines_strftime (t : DateTime) : newlines (strftime t) = 0%nat.
Proof.
  unfold strftime.
  repeat rewrite newlines_app.
  repeat rewrite newlines_zero_pad by apply newlines_dec.
  reflexivity.
Qed.

Lemma newlines_repr_byte (q : N) (b : byte) :
  q = APOS \/ q = DQUOTE -> newlines (repr_byte q (Byte.to_N b)) = 0%nat.
Proof. intros [-> | ->]; destruct b; reflexivity. Qed.

Lemma repr_quote_cases (cs : list N) :
  repr_quote cs = APOS \/ repr_quote cs = DQUOTE.
Proof.
  unfold repr_quote.
  destruct (existsb (N.eqb APOS) cs && negb (existsb (N.eqb DQUOTE) cs));
    auto.
Qed.

Lemma newlines_bytes_repr (b : list byte) : newlines (bytes_repr b) = 0%nat.
Proof.
  unfold bytes_repr.
  generalize (repr_quote_cases (List.map Byte.to_N b)).
  generalize (repr_quote (List.map Byte.to_N b)) as q. intros q Hq.
  assert (Hbody : newlines (flat_map (repr_byte q) (List.map Byte.to_N b))
                  = 0%nat).
  { induction b as [|x b IH]; [reflexivity|].
    cbn [List.map flat_map]. rewrite newlines_app, IH.
    rewrite newlines_repr_byte by exact Hq. reflexivity. }
  rewrite !newlines_app, Hbody.
  destruct Hq as [-> | ->]; reflexivity.
Qed.

Lemma newlines_format_payload (p : Payload) :
  (forall s, p = PStr s -> newlines s = 0%nat) ->
  newlines (format_payload p) = 0%nat.
Proof.
  destruct p as [b|s]; intros H; cbn.
  - apply newlines_bytes_repr.
  - apply H. reflexivity.
Qed.

Lemma newlines_log_entry (t : DateTime) (msg : MQTTMessage) :
  newlines (topic msg) = 0%nat ->
  (forall s, payload msg = PStr s -> newlines s = 0%nat) ->
  newlines (log_entry (strftime t) msg) = 1%nat.
Proof.
  intros Ht Hp. unfold log_entry.
  repeat rewrite newlines_app.
  rewrite newlines_strftime, Ht, newlines_str_int, newlines_str_bool.
  rewrite newlines_format_payload by exact Hp.
  reflexivity.
Qed.

(* ------------------------------------------------------------------ *)
(** ** One block and one entry per message *)

(** C3 (as amended).  Handling a message makes exactly five [print] calls
    (timestamp, topic, QoS/retained, payload, separator) and exactly one
    [write] to the log file, of a text that ends in a line feed.  That text
    is a single line whenever the topic holds no line feed and the payload
    is a [bytes] object or a text without line feed. *)
Theorem C3_one_block_one_entry
        (env : Env) (msg : MQTTMessage) (w : World) (buf : pystr) :
  log_file w = Opened buf ->
  exists w' body,
    on_message_with_log env msg w = (Ok tt, w')
    /\ console w'
       = console w
         ++ [ lit "[" ++ strftime (clock env (ticks w)) ++ lit "]";
              lit "Topic: " ++ topic msg;
              lit "QoS: " ++ str_int (qos msg) ++ lit ", Retained: "
                ++ str_bool (retain msg);
              lit "Payload: " ++ decode_payload (payload msg);
              separator ]
    /\ file_trace w' = file_trace w ++ [FWrite (body ++ [LF]); FFlush]
    /\ log_disk w' = log_disk w ++ buf ++ body ++ [LF]
    /\ (newlines (topic msg) = 0%nat ->
        (forall s, payload msg = PStr s -> newlines s = 0%nat) ->
        newlines (body ++ [LF]) = 1%nat).
Proof.
  intros Hopen.
  pose (ts := strftime (clock env (S (ticks w)))).
  exists (snd (on_message_with_log env msg w)).
  exists (lit "[" ++ ts ++ lit "] Topic: " ++ topic msg ++ lit ", QoS: "
          ++ str_int (qos msg) ++ lit ", Retained: "
          ++ str_bool (retain msg) ++ lit ", Payload: "
          ++ format_payload (payload msg)).
  assert (Hentry :
            (lit "[" ++ ts ++ lit "] Topic: " ++ topic msg ++ lit ", QoS: "
             ++ str_int (qos msg) ++ lit ", Retained: "
             ++ str_bool (retain msg) ++ lit ", Payload: "
             ++ format_payload (payload msg)) ++ [LF]
            = log_entry ts msg).
  { unfold log_entry. repeat rewrite <- app_assoc. reflexivity. }
  rewrite Hentry.
  rewrite (on_message_with_log_eq env msg w buf Hopen).
  cbn [snd console log_disk file_trace].
  repeat split.
  intros Ht Hp. apply newlines_log_entry; assumption.
Qed.

Lemma C3_witness :
  exists w' body,
    on_message_with_log env_interrupted msg_text open_world = (Ok tt, w')
    /\ console w'
       = [ lit "[2024-03-09 07:05:00]"; lit "Topic: a/b";
           lit "QoS: 1, Retained: False"; lit "Payload: hi"; separator ]
    /\ file_trace w'
       = [FOpen (lit "mqtt.log") (lit "a"); FWrite (body ++ [LF]); FFlush]
    /\ log_disk w' = body ++ [LF]
    /\ (newlines (lit "a/b") = 0%nat ->
        (forall s, PBytes ["h"%byte; "i"%byte] = PStr s ->
                   newlines s = 0%nat) ->
        newlines (body ++ [LF]) = 1%nat).
Proof.
  exact (C3_one_block_one_entry env_interrupted msg_text open_world []
                                eq_refl).
Defined.

(** C3 as stated fails: a message whose topic is [a], line feed, [b] adds
    two newline-terminated lines to the log file. *)
Lemma C3_counterexample :
  log_disk (snd (on_message_with_log env_interrupted msg_two_lines
                                     open_world))
  = lit "[2024-03-09 07:05:00] Topic: a" ++ [LF]
    ++ lit "b, QoS: 0, Retained: False, Payload: b'hi'" ++ [LF]
  /\ newlines (log_disk (snd (on_message_with_log env_interrupted
                                                  msg_two_lines open_world)))
     = 2%nat.
Proof. split; reflexivity. Qed.

(* ------------------------------------------------------------------ *)
(** ** The format of a log line *)

Lemma decimal_field_pad (w : nat) (bound n : N) :
  forallb (fun k => decimal_field w (N.of_nat k)
                                  (zero_pad w (dec (N.of_nat k))))
          (List.seq 0 (N.to_nat bound)) = true ->
  n < bound ->
  decimal_field w n (zero_pad w (dec n)) = true.
Proof.
  intros Hall Hn. rewrite forallb_forall in Hall.
  specialize (Hall (N.to_nat n)). rewrite N2Nat.id in Hall.
  apply Hall. apply in_seq. lia.
Qed.

Lemma two_digit_table :
  forallb (fun k => decimal_field 2 (N.of_nat k)
                                  (zero_pad 2 (dec (N.of_nat k))))
          (List.seq 0 (N.to_nat 100)) = true.
Proof. vm_compute. reflexivity. Qed.

Lemma four_digit_table :
  forallb (fun k => decimal_field 4 (N.of_nat k)
                                  (zero_pad 4 (dec (N.of_nat k))))
          (List.seq 0 (N.to_nat 10000)) = true.
Proof. vm_compute. reflexivity. Qed.

Lemma two_digits (n : N) :
  n < 100 -> decimal_field 2 n (zero_pad 2 (dec n)) = true.
Proof.
  intros H. apply (decimal_field_pad 2 100); [exact two_digit_table | exact H].
Qed.

Lemma four_digits (n : N) :
  n < 10000 -> decimal_field 4 n (zero_pad 4 (dec n)) = true.
Proof.
  intros H. apply (decimal_field_pad 4 10000); [exact four_digit_table | exact H].
Qed.

Lemma valid_datetime_bounds (t : DateTime) :
  valid_datetime t = true ->
  year t < 10000 /\ month t < 100 /\ day t < 100 /\ hour t < 100
  /\ minute t < 100 /\ second t < 100.
Proof.
  unfold valid_datetime, in_range. intros H.
  rewrite !andb_true_iff, !N.leb_le, !N.ltb_lt in H. lia.
Qed.

Lemma str_int_qos (q : Z) :
  (0 <= q <= 2)%Z -> str_int q = [48 + Z.to_N q].
Proof.
  intros H. assert (q = 0 \/ q = 1 \/ q = 2)%Z as [-> | [-> | ->]] by lia;
    reflexivity.
Qed.

(** The layout of the line [log_to_file] writes, up to the payload field:
    [[YYYY-MM-DD HH:MM:SS] Topic: <topic>, QoS: <q>, Retained: <r>, Payload: ]
    then the formatted payload and a line feed.  The six timestamp fields
    are the clock's year, month, day, hour, minute and second in exactly 4,
    2, 2, 2, 2 and 2 decimal digits, [q] is the single digit of the QoS and
    [r] is [True] or [False] after the retained flag. *)
Lemma log_line_layout
        (env : Env) (msg : MQTTMessage) (w : World) (buf : pystr) :
  log_file w = Opened buf ->
  valid_datetime (clock env (ticks w)) = true ->
  (0 <= qos msg <= 2)%Z ->
  exists Y Mo D h mi s,
    decimal_field 4 (year (clock env (ticks w))) Y = true
    /\ decimal_field 2 (month (clock env (ticks w))) Mo = true
    /\ decimal_field 2 (day (clock env (ticks w))) D = true
    /\ decimal_field 2 (hour (clock env (ticks w))) h = true
    /\ decimal_field 2 (minute (clock env (ticks w))) mi = true
    /\ decimal_field 2 (second (clock env (ticks w))) s = true
    /\ file_trace (snd (log_to_file env msg w))
       = file_trace w
         ++ [ FWrite
                (lit "[" ++ Y ++ lit "-" ++ Mo ++ lit "-" ++ D ++ lit " "
                 ++ h ++ lit ":" ++ mi ++ lit ":" ++ s
                 ++ lit "] Topic: " ++ topic msg
                 ++ lit ", QoS: " ++ [48 + Z.to_N (qos msg)]
                 ++ lit ", Retained: "
                 ++ (if retain msg then lit "True" else lit "False")
                 ++ lit ", Payload: " ++ format_payload (payload msg)
                 ++ [LF]);
              FFlush ].
Proof.
  intros Hopen Hvalid Hqos.
  destruct (valid_datetime_bounds _ Hvalid) as (Hy & Hmo & Hd & Hh & Hmi & Hs).
  set (t := clock env (ticks w)) in *.
  exists (zero_pad 4 (dec (year t))), (zero_pad 2 (dec (month t))),
         (zero_pad 2 (dec (day t))), (zero_pad 2 (dec (hour t))),
         (zero_pad 2 (dec (minute t))), (zero_pad 2 (dec (second t))).
  repeat (split; [first [apply four_digits | apply two_digits]; assumption|]).
  rewrite (log_to_file_eq env msg w buf Hopen).
  cbn [snd file_trace]. fold t.
  unfold entry_ops, log_entry, strftime, str_bool.
  rewrite (str_int_qos _ Hqos).
  repeat rewrite <- app_assoc. reflexivity.
Qed.

Lemma log_line_layout_witness :
  exists Y Mo D h mi s,
    decimal_field 4 2024 Y = true
    /\ decimal_field 2 3 Mo = true
    /\ decimal_field 2 9 D = true
    /\ decimal_field 2 7 h = true
    /\ decimal_field 2 5 mi = true
    /\ decimal_field 2 0 s = true
    /\ file_trace (snd (log_to_file env_interrupted msg_text open_world))
       = [ FOpen (lit "mqtt.log") (lit "a");
           FWrite
             (lit "[" ++ Y ++ lit "-" ++ Mo ++ lit "-" ++ D ++ lit " "
              ++ h ++ lit ":" ++ mi ++ lit ":" ++ s
              ++ lit "] Topic: a/b, QoS: 1, Retained: False, Payload: b'hi'"
              ++ [LF]);
           FFlush ].
Proof.
  refine (log_line_layout env_interrupted msg_text open_world []
            eq_refl eq_refl _).
  cbn. lia.
Defined.

Example log_line_sample :
  log_disk (snd (log_to_file env_interrupted msg_text open_world))
  = lit "[2024-03-09 07:05:00] Topic: a/b, QoS: 1, Retained: False, Payload: b'hi'"
    ++ [LF].
Proof. reflexivity. Qed.

(** C4 (defect of the code).  For the message with topic [a/b], QoS 1, not
    retained and payload [b"hi"], read at 2024-03-09 07:05:00, the line
    [log_to_file] writes has the timestamp, topic, QoS and retained fields
    of the pattern, but its payload field is [b'hi'], the literal of the
    [bytes] object, where the pattern has the raw payload [hi]. *)
Theorem C4_log_line_payload_field_not_raw :
  payload msg_text = PBytes ["h"%byte; "i"%byte]
  /\ List.map Byte.to_N ["h"%byte; "i"%byte] = lit "hi"
  /\ file_trace (snd (log_to_file env_interrupted msg_text open_world))
     = [ FOpen (lit "mqtt.log") (lit "a");
         FWrite
           (lit "[2024-03-09 07:05:00] Topic: a/b, QoS: 1, Retained: False, Payload: b'hi'"
            ++ [LF]);
         FFlush ]
  /\ log_disk (snd (log_to_file env_interrupted msg_text open_world))
     <> lit "[2024-03-09 07:05:00] Topic: a/b, QoS: 1, Retained: False, Payload: hi"
        ++ [LF].
Proof.
  split; [reflexivity|]. split; [reflexivity|]. split; [reflexivity|].
  intros H. vm_compute in H. discriminate H.
Qed.

(* ------------------------------------------------------------------ *)
(** ** A refused connection *)

(** C8.  For a connect code whose number is not zero, [on_connect] prints
    one line, the failure message ending in the code as [str()] renders it,
    and does nothing else: the client receives no call at all (no
    subscribe, no connect, no reconnect) and the log file is not touched. *)
Theorem C8_refused_connect_only_prints (rc : ReasonCode) (w : World) :
  rc_value rc <> 0%Z ->
  on_connect rc w
  = (Ok tt,
     mkWorld (console w
              ++ [BALLOT_X :: lit " Failed to connect, return code: "
                  ++ rc_str rc])
             (log_disk w) (log_file w) (file_trace w) (client_trace w)
             (ticks w)).
Proof.
  intros Hrc. unfold on_connect.
  destruct (Z.eqb_spec (rc_value rc) 0) as [E|_]; [contradiction|].
  reflexivity.
Qed.

Lemma C8_witness :
  on_connect (int_rc 5) open_world
  = (Ok tt,
     mkWorld [BALLOT_X :: lit " Failed to connect, return code: 5"]
             [] (Opened []) [FOpen (lit "mqtt.log") (lit "a")] [] 0).
Proof.
  apply (C8_refused_connect_only_prints (int_rc 5) open_world).
  cbn. discriminate.
Defined.

(* ------------------------------------------------------------------ *)
(** ** Whole runs *)

Lemma install_failed (env : Env) (w : World) :
  install_ok env = false ->
  exists cons,
    install_paho_mqtt env w
    = (Raise (SystemExit 1),
       mkWorld (console w ++ cons) (log_disk w) (log_file w) (file_trace w)
               (client_trace w) (ticks w)).
Proof.
  unfold install_ok, install_paho_mqtt. intros H.
  apply orb_false_elim in H. destruct H as [-> ->].
  eexists [_; _]. unfold bind, print, sys_exit, raise. cbn.
  rewrite <- app_assoc. reflexivity.
Qed.

Lemma install_passed (env : Env) (w : World) :
  install_ok env = true ->
  exists cons,
    install_paho_mqtt env w
    = (Ok tt,
       mkWorld (console w ++ cons) (log_disk w) (log_file w) (file_trace w)
               (client_trace w) (ticks w)).
Proof.
  unfold install_ok, install_paho_mqtt. intros H.
  destruct (importable env); [eexists [_]; reflexivity|].
  cbn in H. rewrite H.
  eexists [_; _]. unfold bind, print. cbn.
  rewrite <- app_assoc. reflexivity.
Qed.

Lemma run_without_dependency (env : Env) (args : Args) (prior : pystr) :
  install_ok env = false ->
  exists cons,
    run env args prior
    = (Raise (SystemExit 1), mkWorld cons prior NotOpened [] [] 0).
Proof.
  intros H. unfold run, main, bind.
  destruct (install_failed env (initial_world prior) H) as (cons & E).
  rewrite E. exists cons. reflexivity.
Qed.

Lemma run_spec (env : Env) (args : Args) (prior : pystr) :
  install_ok env = true ->
  exists w cons ents subs,
    run env args prior = (main_result (try_ending env), w)
    /\ file_trace w
       = FOpen (log args) (lit "a") :: flat_map entry_ops ents
         ++ match try_ending env with Normal => [] | _ => [FClose] end
    /\ log_disk w = prior ++ List.concat ents
    /\ log_file w
       = match try_ending env with Normal => Opened [] | _ => Closed end
    /\ client_trace w
       = CConnect (broker args) (port args) 60 :: subs
         ++ match try_ending env with
            | Interrupted => [CDisconnect]
            | _ => []
            end
    /\ ~ In CDisconnect subs
    /\ console w
       = cons
         ++ match try_ending env with
            | Normal => []
            | Interrupted => [LF :: lit "Disconnecting..."; lit "Stopped"]
            | Failed e => [lit "Error: " ++ e]
            end.
Proof.
  intros Hinst. unfold run, main. unfold bind at 1.
  destruct (install_passed env (initial_world prior) Hinst) as (c0 & E0).
  rewrite E0. clear E0.
  unfold bind at 1. unfold file_open, set_file, initial_world.
  cbn [console log_disk log_file file_trace client_trace ticks app].
  unfold try_except, try_ending, client_connect, client_loop_forever.
  unfold bind at 1. unfold print at 1.
  cbn [console log_disk log_file file_trace client_trace ticks app].
  unfold bind at 1. unfold bind at 1. unfold client_call at 1.
  cbn [console log_disk log_file file_trace client_trace ticks app].
  destruct (connect_ending env) as [| |e].
  - unfold finish at 1. unfold ret.
    unfold bind at 1. unfold print at 1.
    unfold bind at 1. unfold print at 1.
    unfold bind at 1. unfold client_call at 1.
    cbn [console log_disk log_file file_trace client_trace ticks app].
    unfold bind at 1.
    match goal with
    | |- context [dispatch env _ ?w1] =>
      destruct (dispatch_spec env (deliveries env) w1 eq_refl)
        as (w' & ents & subs & E & Hf & Ht & Hd & Hc & Hn)
    end.
    rewrite E. clear E.
    cbn [console log_disk log_file file_trace client_trace ticks app]
      in Ht, Hd, Hc.
    destruct w' as [c' d' f' t' cl' k']. cbn in Hf, Ht, Hd, Hc. subst.
    destruct (loop_ending env) as [| |e];
      (eexists; exists c', ents, (CLoopForever :: subs);
       split; [reflexivity|];
       cbn [console log_disk log_file file_trace client_trace ticks];
       rewrite ?app_nil_r; rewrite <- ?app_assoc;
       repeat split;
       intros [H|H]; [discriminate H | tauto]).
  - eexists.
    exists (c0 ++ [lit "Connecting to MQTT broker at " ++ broker args
                   ++ lit ":" ++ str_int (port args) ++ lit "..."]), [], [].
    split; [reflexivity|].
    cbn [console log_disk log_file file_trace client_trace ticks
         flat_map List.concat app].
    rewrite ?app_nil_r; rewrite <- ?app_assoc.
    repeat split. tauto.
  - eexists.
    exists (c0 ++ [lit "Connecting to MQTT broker at " ++ broker args
                   ++ lit ":" ++ str_int (port args) ++ lit "..."]), [], [].
    split; [reflexivity|].
    cbn [console log_disk log_file file_trace client_trace ticks
         flat_map List.concat app].
    rewrite ?app_nil_r; rewrite <- ?app_assoc.
    repeat split. tauto.
Qed.

(* ------------------------------------------------------------------ *)
(** ** Readings of a file trace *)

Lemma opens_app (t1 t2 : list FileOp) :
  opens (t1 ++ t2) = opens t1 ++ opens t2.
Proof.
  induction t1 as [|op t1 IH]; [reflexivity|].
  destruct op; cbn; rewrite IH; reflexivity.
Qed.

Lemma written_app (t1 t2 : list FileOp) :
  written (t1 ++ t2) = written t1 ++ written t2.
Proof.
  induction t1 as [|op t1 IH]; [reflexivity|].
  destruct op; cbn; rewrite IH; try reflexivity.
  apply app_assoc.
Qed.

Lemma closes_app (t1 t2 : list FileOp) :
  closes (t1 ++ t2) = (closes t1 + closes t2)%nat.
Proof.
  induction t1 as [|op t1 IH]; [reflexivity|].
  destruct op; cbn; rewrite IH; reflexivity.
Qed.

Lemma opens_entries (ents : list pystr) :
  opens (flat_map entry_ops ents) = [].
Proof. induction ents; cbn; auto. Qed.

Lemma written_entries (ents : list pystr) :
  written (flat_map entry_ops ents) = List.concat ents.
Proof. induction ents as [|e ents IH]; cbn; [|rewrite IH]; reflexivity. Qed.

Lemma closes_entries (ents : list pystr) :
  closes (flat_map entry_ops ents) = 0%nat.
Proof. induction ents; cbn; auto. Qed.

(* ------------------------------------------------------------------ *)
(** ** The log file over a run *)

(** C5 (as amended).  A run opens the log file at most once, in append
    mode: exactly once when the dependency step lets the program go on,
    not at all when the program exits there.  In every run the text of the
    file afterwards is the prior text followed by what the run wrote, so
    nothing that was there is removed or overwritten. *)
Theorem C5_append_only (env : Env) (args : Args) (prior : pystr) :
  opens (file_trace (snd (run env args prior)))
  = (if install_ok env then [(log args, lit "a")] else [])
  /\ log_disk (snd (run env args prior))
     = prior ++ written (file_trace (snd (run env args prior))).
Proof.
  destruct (install_ok env) eqn:Hinst.
  - destruct (run_spec env args prior Hinst)
      as (w & cons & ents & subs & E & Ht & Hd & _).
    rewrite E. cbn [snd]. rewrite Ht, Hd.
    change (FOpen (log args) (lit "a")
            :: flat_map entry_ops ents
               ++ match try_ending env with Normal => [] | _ => [FClose] end)
      with ([FOpen (log args) (lit "a")]
            ++ flat_map entry_ops ents
               ++ match try_ending env with Normal => [] | _ => [FClose] end).
    rewrite !opens_app, !written_app, opens_entries, written_entries.
    destruct (try_ending env); cbn; rewrite ?app_nil_r; auto.
  - destruct (run_without_dependency env args prior Hinst) as (cons & E).
    rewrite E. cbn. rewrite app_nil_r. auto.
Qed.

(** C5 as stated fails: when the dependency can be neither imported nor
    installed the run ends before the log file is opened, so that run opens
    it zero times, not once. *)
Lemma C5_counterexample :
  install_ok env_no_dependency = false
  /\ fst (run env_no_dependency sample_args (lit "old"))
     = Raise (SystemExit 1)
  /\ List.length
       (opens (file_trace (snd (run env_no_dependency sample_args
                                    (lit "old"))))) = 0%nat.
Proof. repeat split. Qed.

(* ------------------------------------------------------------------ *)
(** ** How a run ends *)

(** C6.  The exit status of a run is 1 when the dependency can be neither
    imported nor installed; otherwise it is 0 when Ctrl-C ends the [try]
    body (and when the body returns), and 1 when an exception reaches the
    handler of [main].  No other status arises. *)
Theorem C6_exit_codes (env : Env) (args : Args) (prior : pystr) :
  exit_status env args prior
  = (if install_ok env
     then match try_ending env with
          | Interrupted => 0
          | Failed _ => 1
          | Normal => 0
          end
     else 1)%Z.
Proof.
  unfold exit_status. destruct (install_ok env) eqn:Hinst.
  - destruct (run_spec env args prior Hinst) as (w & cons & ents & subs & E & _).
    rewrite E. destruct (try_ending env); reflexivity.
  - destruct (run_without_dependency env args prior Hinst) as (cons & E).
    rewrite E. reflexivity.
Qed.

(** C7.  When Ctrl-C ends the [try] body of [main], the run disconnects
    the client, closes the log file, and ends with status 0.  The close is
    the last operation on the file and the only close, so no write follows
    it. *)
Theorem C7_interrupt_shutdown (env : Env) (args : Args) (prior : pystr) :
  install_ok env = true ->
  try_ending env = Interrupted ->
  exists w ops calls,
    run env args prior = (Ok tt, w)
    /\ exit_status env args prior = 0%Z
    /\ client_trace w = calls ++ [CDisconnect]
    /\ file_trace w = ops ++ [FClose]
    /\ closes ops = 0%nat
    /\ closes (file_trace w) = 1%nat
    /\ log_file w = Closed.
Proof.
  intros Hinst Hend.
  destruct (run_spec env args prior Hinst)
    as (w & cons & ents & subs & E & Ht & Hd & Hf & Hc & Hn & Hcons).
  rewrite Hend in *. cbn [main_result] in E.
  exists w, (FOpen (log args) (lit "a") :: flat_map entry_ops ents),
         (CConnect (broker args) (port args) 60 :: subs).
  assert (Hops : closes (FOpen (log args) (lit "a")
                         :: flat_map entry_ops ents) = 0%nat).
  { cbn [closes]. apply closes_entries. }
  repeat split; auto.
  - unfold exit_status. rewrite E. reflexivity.
  - rewrite Ht.
    change (FOpen (log args) (lit "a") :: flat_map entry_ops ents ++ [FClose])
      with ((FOpen (log args) (lit "a") :: flat_map entry_ops ents)
            ++ [FClose]).
    rewrite closes_app, Hops. reflexivity.
Qed.

Lemma C7_witness :
  exists w ops calls,
    run env_interrupted sample_args (lit "old") = (Ok tt, w)
    /\ exit_status env_interrupted sample_args (lit "old") = 0%Z
    /\ client_trace w = calls ++ [CDisconnect]
    /\ file_trace w = ops ++ [FClose]
    /\ closes ops = 0%nat
    /\ closes (file_trace w) = 1%nat
    /\ log_file w = Closed.
Proof.
  exact (C7_interrupt_shutdown env_interrupted sample_args (lit "old")
                               eq_refl eq_refl).
Defined.

(** C10.  When an exception other than the interrupt ends the [try] body
    of [main], the run prints [Error: ] followed by the exception's text,
    closes the log file, and ends with status 1; the client is never asked
    to disconnect. *)
Theorem C10_error_path_no_disconnect
        (env : Env) (args : Args) (prior : pystr) (e : pystr) :
  install_ok env = true ->
  try_ending env = Failed e ->
  exists w cons ops,
    run env args prior = (Raise (SystemExit 1), w)
    /\ exit_status env args prior = 1%Z
    /\ console w = cons ++ [lit "Error: " ++ e]
    /\ file_trace w = ops ++ [FClose]
    /\ closes ops = 0%nat
    /\ log_file w = Closed
    /\ ~ In CDisconnect (client_trace w).
Proof.
  intros Hinst Hend.
  destruct (run_spec env args prior Hinst)
    as (w & cons & ents & subs & E & Ht & Hd & Hf & Hc & Hn & Hcons).
  rewrite Hend in *. cbn [main_result] in E.
  exists w, cons, (FOpen (log args) (lit "a") :: flat_map entry_ops ents).
  repeat split; auto.
  - unfold exit_status. rewrite E. reflexivity.
  - cbn [closes]. apply closes_entries.
  - rewrite Hc, app_nil_r. intros [H|H]; [discriminate H | tauto].
Qed.

Lemma C10_witness :
  exists w cons ops,
    run env_failed sample_args (lit "old") = (Raise (SystemExit 1), w)
    /\ exit_status env_failed sample_args (lit "old") = 1%Z
    /\ console w = cons ++ [lit "Error: boom"]
    /\ file_trace w = ops ++ [FClose]
    /\ closes ops = 0%nat
    /\ log_file w = Closed
    /\ ~ In CDisconnect (client_trace w).
Proof.
  exact (C10_error_path_no_disconnect env_failed sample_args (lit "old")
                                      (lit "boom") eq_refl eq_refl).
Defined.

(* ------------------------------------------------------------------ *)
(** ** Flushing *)

(** C9.  With the log file open, handling a message writes the entry and
    flushes before the handler returns: the handle's buffer is empty
    afterwards, the entry (and whatever the buffer held) is on disk, and
    the buffer stays empty across any further deliveries. *)
Theorem C9_flushed_after_each_message
        (env : Env) (msg : MQTTMessage) (w : World) (buf : pystr) :
  log_file w = Opened buf ->
  exists w' entry,
    on_message_with_log env msg w = (Ok tt, w')
    /\ log_file w' = Opened []
    /\ log_disk w' = log_disk w ++ buf ++ entry
    /\ file_trace w' = file_trace w ++ [FWrite entry; FFlush]
    /\ forall evs, log_file (snd (dispatch env evs w')) = Opened [].
Proof.
  intros Hopen. eexists _, _. split.
  - apply on_message_with_log_eq. exact Hopen.
  - cbn [log_file log_disk file_trace]. repeat split.
    intros evs.
    match goal with
    | |- context [dispatch env evs ?w1] =>
      destruct (dispatch_spec env evs w1 eq_refl) as (w2 & ? & ? & E & Hf & _)
    end.
    rewrite E. exact Hf.
Qed.

Lemma C9_witness :
  exists w' entry,
    on_message_with_log env_interrupted msg_text open_world = (Ok tt, w')
    /\ log_file w' = Opened []
    /\ log_disk w' = entry
    /\ file_trace w'
       = [FOpen (lit "mqtt.log") (lit "a"); FWrite entry; FFlush]
    /\ forall evs, log_file (snd (dispatch env_interrupted evs w'))
                   = Opened [].
Proof.
  exact (C9_flushed_after_each_message env_interrupted msg_text open_world
                                       [] eq_refl).
Defined.

(* ------------------------------------------------------------------ *)
(** ** The two sinks never agree on a [bytes] payload

    The inputs shown for C1 and C2 are not isolated: for every [bytes]
    payload the payload field of the log line differs from the payload
    text of the console. *)

Lemma utf8_decode_length_le (n : nat) :
  forall (b : list byte) (s : pystr),
    (List.length b <= n)%nat ->
    utf8_decode b = Some s ->
    (List.length s <= List.length b)%nat.
Proof.
  induction n as [|n IH]; intros b s Hn Hd.
  - destruct b; [|cbn in Hn; lia]. cbn in Hd. injection Hd as <-. cbn. lia.
  - destruct b as [|b0 r0].
    + cbn in Hd. injection Hd as <-. cbn. lia.
    + cbn [utf8_decode] in Hd. cbn zeta in Hd. cbn [List.length] in Hn.
      decode_cases Hd;
        match type of Hd with
        | option_map _ (utf8_decode ?r) = Some _ =>
          destruct (utf8_decode r) as [s'|] eqn:E;
            [ cbn in Hd; injection Hd as <-;
              apply IH in E; cbn [List.length] in *; lia
            | discriminate Hd ]
        end.
Qed.

Lemma repr_byte_nonempty (q c : N) :
  (1 <= List.length (repr_byte q c))%nat.
Proof.
  unfold repr_byte.
  repeat match goal with
         | |- context [if ?c then _ else _] => destruct c
         end; cbn; lia.
Qed.

Lemma bytes_repr_length (b : list byte) :
  (List.length b + 3 <= List.length (bytes_repr b))%nat.
Proof.
  unfold bytes_repr.
  generalize (repr_quote (List.map Byte.to_N b)) as q. intros q.
  rewrite !length_app. cbn [List.length].
  assert (List.length b
          <= List.length (flat_map (repr_byte q) (List.map Byte.to_N b)))%nat.
  { induction b as [|x b IH]; cbn [List.map flat_map List.length]; [lia|].
    rewrite length_app. pose proof (repr_byte_nonempty q (Byte.to_N x)).
    lia. }
  lia.
Qed.

Lemma raw_field_never_decoded (b : list byte) (s : pystr) :
  utf8_decode b = Some s ->
  format_payload (PBytes b) <> decode_payload (PBytes b).
Proof.
  intros Hd Heq. unfold format_payload, decode_payload in Heq.
  rewrite Hd in Heq.
  pose proof (utf8_decode_length_le (List.length b) b s (Nat.le_refl _) Hd)
    as Hle.
  pose proof (bytes_repr_length b) as Hge. rewrite Heq in Hge. lia.
Qed.

Lemma raw_field_never_placeholder (b : list byte) :
  utf8_decode b = None ->
  format_payload (PBytes b) <> decode_payload (PBytes b).
Proof.
  intros Hd Heq. unfold format_payload, decode_payload in Heq.
  rewrite Hd in Heq. unfold bytes_repr in Heq. cbn in Heq.
  discriminate Heq.
Qed.

(* ------------------------------------------------------------------ *)
(** ** The loop and the run, exactly *)

Lemma dispatch_exact (env : Env) (evs : list Event) :
  forall w, log_file w = Opened [] ->
  exists k',
    dispatch env evs w
    = (Ok tt,
       mkWorld (console w ++ console_of env (ticks w) evs)
               (log_disk w ++ List.concat (entries_of env (ticks w) evs))
               (Opened [])
               (file_trace w
                ++ flat_map entry_ops (entries_of env (ticks w) evs))
               (client_trace w ++ subscriptions evs)
               k').
Proof.
  induction evs as [|ev rest IH]; intros w Hopen.
  - exists (ticks w). cbn. rewrite !app_nil_r. destruct w; cbn in *.
    subst. reflexivity.
  - destruct ev as [rc|msg];
      cbn [dispatch entries_of console_of subscriptions]; unfold bind.
    + unfold on_connect, connect_lines.
      destruct (rc_value rc =? 0)%Z.
      * unfold bind, print, client_call.
        cbn [console log_disk log_file file_trace client_trace ticks].
        match goal with
        | |- context [dispatch env rest ?w1] =>
          destruct (IH w1 Hopen) as (k' & E)
        end.
        rewrite E. exists k'.
        cbn [console log_disk log_file file_trace client_trace ticks].
        rewrite <- !app_assoc. reflexivity.
      * unfold print.
        cbn [console log_disk log_file file_trace client_trace ticks].
        match goal with
        | |- context [dispatch env rest ?w1] =>
          destruct (IH w1 Hopen) as (k' & E)
        end.
        rewrite E. exists k'.
        cbn [console log_disk log_file file_trace client_trace ticks].
        rewrite <- !app_assoc. reflexivity.
    + rewrite (on_message_with_log_eq env msg w [] Hopen).
      match goal with
      | |- context [dispatch env rest ?w1] =>
        destruct (IH w1 eq_refl) as (k' & E)
      end.
      rewrite E. exists k'.
      cbn [console log_disk log_file file_trace client_trace ticks
           flat_map List.concat app].
      rewrite <- !app_assoc. reflexivity.
Qed.

Lemma install_exact (env : Env) (w : World) :
  install_paho_mqtt env w
  = (if install_ok env then Ok tt else Raise (SystemExit 1),
     mkWorld (console w ++ install_lines env) (log_disk w) (log_file w)
             (file_trace w) (client_trace w) (ticks w)).
Proof.
  unfold install_paho_mqtt, install_ok, install_lines.
  destruct (importable env); [reflexivity|].
  destruct (pip_ok env); unfold bind, print, sys_exit, raise; cbn;
    rewrite <- app_assoc; reflexivity.
Qed.

Lemma run_exact (env : Env) (args : Args) (prior : pystr) :
  install_ok env = true ->
  exists k,
    run env args prior
    = (main_result (try_ending env),
       mkWorld
         (install_lines env ++ [banner args]
          ++ match connect_ending env with
             | Normal =>
               [lit "Listening for MQTT messages...";
                lit "Press Ctrl+C to stop" ++ [LF]]
               ++ console_of env 0 (deliveries env)
             | _ => []
             end
          ++ closing_lines (try_ending env))
         (prior ++ List.concat (entries_of env 0 (delivered env)))
         (match try_ending env with Normal => Opened [] | _ => Closed end)
         (FOpen (log args) (lit "a")
          :: flat_map entry_ops (entries_of env 0 (delivered env))
          ++ match try_ending env with Normal => [] | _ => [FClose] end)
         (CConnect (broker args) (port args) 60
          :: match connect_ending env with
             | Normal => CLoopForever :: subscriptions (deliveries env)
             | _ => []
             end
          ++ match try_ending env with
             | Interrupted => [CDisconnect]
             | _ => []
             end)
         k).
Proof.
  intros Hinst. unfold run, main. unfold bind at 1.
  rewrite install_exact, Hinst.
  unfold bind at 1. unfold file_open, set_file, initial_world.
  cbn [console log_disk log_file file_trace client_trace ticks app].
  unfold try_except, try_ending, delivered, client_connect,
    client_loop_forever, banner.
  unfold bind at 1. unfold print at 1.
  cbn [console log_disk log_file file_trace client_trace ticks app].
  unfold bind at 1. unfold bind at 1. unfold client_call at 1.
  cbn [console log_disk log_file file_trace client_trace ticks app].
  destruct (connect_ending env) as [| |e].
  - unfold finish at 1. unfold ret.
    unfold bind at 1. unfold print at 1.
    unfold bind at 1. unfold print at 1.
    unfold bind at 1. unfold client_call at 1.
    cbn [console log_disk log_file file_trace client_trace ticks app].
    unfold bind at 1.
    match goal with
    | |- context [dispatch env _ ?w1] =>
      destruct (dispatch_exact env (deliveries env) w1 eq_refl) as (k' & E)
    end.
    rewrite E. clear E.
    cbn [console log_disk log_file file_trace client_trace ticks app].
    destruct (loop_ending env) as [| |e];
      (exists k'; run_steps; rewrite ?app_nil_r; rewrite <- ?app_assoc;
       reflexivity).
  - exists 0%nat. run_steps. rewrite ?app_nil_r; rewrite <- ?app_assoc.
    reflexivity.
  - exists 0%nat. run_steps. rewrite ?app_nil_r; rewrite <- ?app_assoc.
    reflexivity.
Qed.

Lemma writes_app (t1 t2 : list FileOp) :
  writes (t1 ++ t2) = writes t1 ++ writes t2.
Proof.
  induction t1 as [|op t1 IH]; [reflexivity|].
  destruct op; cbn; rewrite IH; reflexivity.
Qed.

Lemma writes_entries (ents : list pystr) :
  writes (flat_map entry_ops ents) = ents.
Proof. induction ents as [|e ents IH]; cbn; [|rewrite IH]; reflexivity. Qed.

Lemma entries_of_length (env : Env) (evs : list Event) :
  forall k,
    List.length (entries_of env k evs) = List.length (messages_of evs).
Proof.
  induction evs as [|[rc|msg] rest IH]; intros k; cbn; auto.
Qed.

(* ------------------------------------------------------------------ *)
(** ** What a whole run leaves behind *)

(** X1.  In a run that gets past the dependency step, the [write] calls on
    the log file are exactly the entries of the delivered messages, in the
    order of delivery, the entry of the i-th message stamped with clock
    reading 2i+1 (reading 2i stamps its console block); connect events
    write nothing.  The file afterwards is the prior text followed by these
    entries, however the run ends. *)
Theorem run_log_is_entries_in_order
        (env : Env) (args : Args) (prior : pystr) :
  install_ok env = true ->
  writes (file_trace (snd (run env args prior)))
  = entries_of env 0 (delivered env)
  /\ log_disk (snd (run env args prior))
     = prior ++ List.concat (entries_of env 0 (delivered env)).
Proof.
  intros Hinst. destruct (run_exact env args prior Hinst) as (k & E).
  rewrite E. cbn [snd file_trace log_disk]. split; [|reflexivity].
  change (FOpen (log args) (lit "a")
          :: flat_map entry_ops (entries_of env 0 (delivered env))
             ++ match try_ending env with Normal => [] | _ => [FClose] end)
    with ([FOpen (log args) (lit "a")]
          ++ flat_map entry_ops (entries_of env 0 (delivered env))
             ++ match try_ending env with Normal => [] | _ => [FClose] end).
  rewrite !writes_app, writes_entries.
  destruct (try_ending env); cbn; rewrite ?app_nil_r; reflexivity.
Qed.

Lemma run_log_is_entries_in_order_witness :
  writes (file_trace (snd (run env_interrupted sample_args (lit "old"))))
  = [ lit "[2024-03-09 07:05:00] Topic: a/b, QoS: 1, Retained: False, Payload: b'hi'"
      ++ [LF];
      lit "[2024-03-09 07:05:00] Topic: a/b, QoS: 0, Retained: True, Payload: b'\xff'"
      ++ [LF] ]
  /\ log_disk (snd (run env_interrupted sample_args (lit "old")))
     = lit "old"
       ++ lit "[2024-03-09 07:05:00] Topic: a/b, QoS: 1, Retained: False, Payload: b'hi'"
       ++ [LF]
       ++ lit "[2024-03-09 07:05:00] Topic: a/b, QoS: 0, Retained: True, Payload: b'\xff'"
       ++ [LF].
Proof.
  exact (run_log_is_entries_in_order env_interrupted sample_args (lit "old")
                                     eq_refl).
Defined.

(** X2.  A run writes to the log file exactly as many times as messages
    were delivered to it. *)
Theorem run_one_write_per_message
        (env : Env) (args : Args) (prior : pystr) :
  install_ok env = true ->
  List.length (writes (file_trace (snd (run env args prior))))
  = List.length (messages_of (delivered env)).
Proof.
  intros Hinst. destruct (run_exact env args prior Hinst) as (k & E).
  rewrite E. cbn [snd file_trace].
  change (FOpen (log args) (lit "a")
          :: flat_map entry_ops (entries_of env 0 (delivered env))
             ++ match try_ending env with Normal => [] | _ => [FClose] end)
    with ([FOpen (log args) (lit "a")]
          ++ flat_map entry_ops (entries_of env 0 (delivered env))
             ++ match try_ending env with Normal => [] | _ => [FClose] end).
  rewrite !writes_app, writes_entries, !length_app, entries_of_length.
  destruct (try_ending env); cbn; lia.
Qed.

Lemma run_one_write_per_message_witness :
  List.length
    (writes (file_trace (snd (run env_interrupted sample_args (lit "old")))))
  = 2%nat.
Proof.
  exact (run_one_write_per_message env_interrupted sample_args (lit "old")
                                   eq_refl).
Defined.

(** X3.  The calls a run makes on the client are: one [connect] with the
    given host and port and keepalive 60; if it returns, [loop_forever] and
    then one [subscribe("#")] for each connect event whose code is 0, and
    for no other event; finally [disconnect] exactly when Ctrl-C ended the
    [try] body.  In particular [connect] is never called a second time. *)
Theorem run_client_calls (env : Env) (args : Args) (prior : pystr) :
  install_ok env = true ->
  client_trace (snd (run env args prior))
  = CConnect (broker args) (port args) 60
    :: match connect_ending env with
       | Normal => CLoopForever :: subscriptions (deliveries env)
       | _ => []
       end
    ++ match try_ending env with
       | Interrupted => [CDisconnect]
       | _ => []
       end.
Proof.
  intros Hinst. destruct (run_exact env args prior Hinst) as (k & E).
  rewrite E. reflexivity.
Qed.

Lemma run_client_calls_witness :
  client_trace (snd (run env_interrupted sample_args (lit "old")))
  = [ CConnect (lit "host") 1883 60; CLoopForever; CSubscribe (lit "#");
      CDisconnect ].
Proof.
  exact (run_client_calls env_interrupted sample_args (lit "old") eq_refl).
Defined.

(** X4.  The console transcript of a run that gets past the dependency
    step: the dependency line(s), the connecting banner, then (if [connect]
    returns) the two listening lines followed by the lines of each delivery
    in order (three lines for an accepted connect, one for a refused one,
    five for a message), and last the lines of the handler that ended the
    run. *)
Theorem run_console_transcript (env : Env) (args : Args) (prior : pystr) :
  install_ok env = true ->
  console (snd (run env args prior))
  = install_lines env ++ [banner args]
    ++ match connect_ending env with
       | Normal =>
         [lit "Listening for MQTT messages...";
          lit "Press Ctrl+C to stop" ++ [LF]]
         ++ console_of env 0 (deliveries env)
       | _ => []
       end
    ++ closing_lines (try_ending env).
Proof.
  intros Hinst. destruct (run_exact env args prior Hinst) as (k & E).
  rewrite E. reflexivity.
Qed.

Lemma run_console_transcript_witness :
  console (snd (run env_failed sample_args (lit "old")))
  = [ CHECK_MARK :: lit " paho-mqtt is already installed";
      lit "Connecting to MQTT broker at host:1883...";
      lit "Listening for MQTT messages...";
      lit "Press Ctrl+C to stop" ++ [LF];
      CHECK_MARK :: lit " Connected to MQTT broker";
      CHECK_MARK :: lit " Subscribed to all topics (#)";
      separator;
      lit "[2024-03-09 07:05:00]"; lit "Topic: a/b";
      lit "QoS: 1, Retained: False"; lit "Payload: hi"; separator;
      lit "Error: boom" ].
Proof.
  exact (run_console_transcript env_failed sample_args (lit "old") eq_refl).
Defined.

(** X5.  When the dependency can be neither imported nor installed, the
    run prints the two dependency lines and exits with [SystemExit(1)]
    before anything else happens: the log file is not opened or created,
    its text is untouched, and the client receives no call. *)
Theorem run_fails_fast_without_dependency
        (env : Env) (args : Args) (prior : pystr) :
  install_ok env = false ->
  run env args prior
  = (Raise (SystemExit 1),
     mkWorld [ lit "Installing paho-mqtt...";
               BALLOT_X :: lit " Failed to install paho-mqtt" ]
             prior NotOpened [] [] 0).
Proof.
  intros Hinst. unfold run, main. unfold bind at 1.
  rewrite install_exact, Hinst.
  unfold install_ok in Hinst. apply orb_false_elim in Hinst.
  destruct Hinst as [Hi Hp]. unfold install_lines. rewrite Hi, Hp.
  reflexivity.
Qed.

Lemma run_fails_fast_without_dependency_witness :
  run env_no_dependency sample_args (lit "old")
  = (Raise (SystemExit 1),
     mkWorld [ lit "Installing paho-mqtt...";
               BALLOT_X :: lit " Failed to install paho-mqtt" ]
             (lit "old") NotOpened [] [] 0).
Proof.
  exact (run_fails_fast_without_dependency env_no_dependency sample_args
                                           (lit "old") eq_refl).
Defined.

(** X6.  No run ends with text held back in the log file's buffer.  The
    handle is closed when Ctrl-C or an exception ended the [try] body; when
    the body simply returns the program never closes the file, but its
    buffer is empty; and when the dependency step exits, the file was never
    opened. *)
Theorem run_leaves_nothing_buffered
        (env : Env) (args : Args) (prior : pystr) :
  log_file (snd (run env args prior))
  = if install_ok env
    then match try_ending env with
         | Normal => Opened []
         | _ => Closed
         end
    else NotOpened.
Proof.
  destruct (install_ok env) eqn:Hinst.
  - destruct (run_exact env args prior Hinst) as (k & E).
    rewrite E. reflexivity.
  - destruct (run_without_dependency env args prior Hinst) as (cons & E).
    rewrite E. reflexivity.
Qed.

(* ------------------------------------------------------------------ *)
(** ** The payload on the two sinks, further *)

Lemma utf8_decode_ascii_bytes (b : list byte) :
  forallb is_ascii b = true ->
  utf8_decode b = Some (List.map Byte.to_N b).
Proof.
  induction b as [|x b IH]; [reflexivity|].
  cbn [forallb]. intros H. apply andb_prop in H. destruct H as [Hx Hb].
  cbn [utf8_decode List.map]. cbn zeta. unfold is_ascii in Hx.
  rewrite Hx, (IH Hb). reflexivity.
Qed.

Lemma plain_is_ascii (x : byte) : plain_byte x = true -> is_ascii x = true.
Proof. destruct x; cbn; intros H; first [reflexivity | discriminate H]. Qed.

Lemma plain_repr_byte (x : byte) :
  plain_byte x = true -> repr_byte APOS (Byte.to_N x) = [Byte.to_N x].
Proof. destruct x; cbn; intros H; first [reflexivity | discriminate H]. Qed.

Lemma plain_not_apos (x : byte) :
  plain_byte x = true -> (APOS =? Byte.to_N x) = false.
Proof. destruct x; cbn; intros H; first [reflexivity | discriminate H]. Qed.

Lemma plain_repr_quote (b : list byte) :
  forallb plain_byte b = true ->
  repr_quote (List.map Byte.to_N b) = APOS.
Proof.
  intros H. unfold repr_quote.
  assert (E : existsb (N.eqb APOS) (List.map Byte.to_N b) = false).
  { induction b as [|x b IH]; [reflexivity|].
    cbn [forallb] in H. apply andb_prop in H. destruct H as [Hx Hb].
    cbn [List.map existsb]. rewrite (plain_not_apos x Hx), (IH Hb).
    reflexivity. }
  rewrite E. reflexivity.
Qed.

Lemma plain_repr_body (b : list byte) :
  forallb plain_byte b = true ->
  flat_map (repr_byte APOS) (List.map Byte.to_N b) = List.map Byte.to_N b.
Proof.
  induction b as [|x b IH]; [reflexivity|].
  cbn [forallb]. intros H. apply andb_prop in H. destruct H as [Hx Hb].
  cbn [List.map flat_map]. rewrite (plain_repr_byte x Hx), (IH Hb).
  reflexivity.
Qed.

Lemma plain_all_ascii (b : list byte) :
  forallb plain_byte b = true -> forallb is_ascii b = true.
Proof.
  induction b as [|x b IH]; [reflexivity|].
  cbn [forallb]. intros H. apply andb_prop in H. destruct H as [Hx Hb].
  rewrite (plain_is_ascii x Hx), (IH Hb). reflexivity.
Qed.

(** X7.  A [bytes] payload made of ASCII bytes only (below 0x80, control
    characters included) is shown on the console as the very same
    characters: it always decodes, one character per byte. *)
Theorem ascii_payload_displayed_verbatim (b : list byte) :
  forallb is_ascii b = true ->
  decode_payload (PBytes b) = List.map Byte.to_N b.
Proof.
  intros H. unfold decode_payload.
  rewrite (utf8_decode_ascii_bytes b H). reflexivity.
Qed.

Lemma ascii_payload_displayed_verbatim_witness :
  decode_payload (PBytes ["h"%byte; "i"%byte; x0a]) = lit "hi" ++ [LF].
Proof.
  exact (ascii_payload_displayed_verbatim ["h"%byte; "i"%byte; x0a] eq_refl).
Defined.

(** X8.  For a [bytes] payload of printable ASCII without apostrophe and
    backslash, the payload field of the log line is the console's payload
    text wrapped as [b'...']: the two sinks show the same characters, the
    log adding a two-character prefix and a closing apostrophe. *)
Theorem plain_payload_log_wraps_console (b : list byte) :
  forallb plain_byte b = true ->
  format_payload (PBytes b)
  = lit "b'" ++ decode_payload (PBytes b) ++ lit "'".
Proof.
  intros H. unfold format_payload, decode_payload, bytes_repr. cbn zeta.
  rewrite (utf8_decode_ascii_bytes b (plain_all_ascii b H)).
  rewrite (plain_repr_quote b H), (plain_repr_body b H). reflexivity.
Qed.

Lemma plain_payload_log_wraps_console_witness :
  format_payload (PBytes ["h"%byte; "i"%byte])
  = lit "b'" ++ decode_payload (PBytes ["h"%byte; "i"%byte]) ++ lit "'".
Proof.
  exact (plain_payload_log_wraps_console ["h"%byte; "i"%byte] eq_refl).
Defined.

(** X9.  The payload text of the console and the payload field of the log
    line coincide exactly when the payload is not a [bytes] object: for
    text they are the same string, for [bytes] (valid UTF-8 or not) they
    always differ. *)
Theorem sinks_agree_iff_payload_is_text (p : Payload) :
  format_payload p = decode_payload p <-> exists s, p = PStr s.
Proof.
  split.
  - destruct p as [b|s]; intros H; [|exists s; reflexivity].
    exfalso. destruct (utf8_decode b) as [s|] eqn:E.
    + exact (raw_field_never_decoded b s E H).
    + exact (raw_field_never_placeholder b E H).
  - intros [s ->]. reflexivity.
Qed.

(* ------------------------------------------------------------------ *)
(** ** The log keeps the payload bytes *)

Lemma unrepr_repr_byte (q : N) (x : byte) (rest : pystr) :
  q = APOS \/ q = DQUOTE ->
  unrepr_body q (repr_byte q (Byte.to_N x) ++ rest)
  = option_map (cons x) (unrepr_body q rest).
Proof. intros [-> | ->]; destruct x; reflexivity. Qed.

Lemma unrepr_repr_body (q : N) (b : list byte) :
  q = APOS \/ q = DQUOTE ->
  unrepr_body q (flat_map (repr_byte q) (List.map Byte.to_N b) ++ [q])
  = Some b.
Proof.
  intros Hq. induction b as [|x b IH].
  - destruct Hq as [-> | ->]; reflexivity.
  - cbn [List.map flat_map]. rewrite <- app_assoc.
    rewrite (unrepr_repr_byte q x _ Hq), IH. reflexivity.
Qed.

Lemma bytes_unrepr_repr (b : list byte) :
  bytes_unrepr (bytes_repr b) = Some b.
Proof.
  unfold bytes_repr. cbn zeta. cbn [app bytes_unrepr].
  apply unrepr_repr_body. apply repr_quote_cases.
Qed.

(** X10.  The payload field of a log line determines the payload bytes:
    reading the [b'...'] literal back gives the bytes that were logged, so
    two different [bytes] payloads never produce the same field. *)
Theorem log_payload_field_round_trip (b1 b2 : list byte) :
  bytes_unrepr (format_payload (PBytes b1)) = Some b1
  /\ (format_payload (PBytes b1) = format_payload (PBytes b2) -> b1 = b2).
Proof.
  split; [apply bytes_unrepr_repr|].
  cbn [format_payload]. intros H.
  pose proof (bytes_unrepr_repr b1) as H1.
  rewrite H, bytes_unrepr_repr in H1. injection H1 as ->. reflexivity.
Qed.

Lemma log_payload_field_round_trip_witness :
  bytes_unrepr (format_payload (PBytes [xff; x27; x0a]))
  = Some [xff; x27; x0a]
  /\ (format_payload (PBytes [xff; x27; x0a])
      = format_payload (PBytes [xff; x27; x0a]) ->
      [xff; x27; x0a] = [xff; x27; x0a]).
Proof.
  exact (log_payload_field_round_trip [xff; x27; x0a] [xff; x27; x0a]).
Defined.

(* ------------------------------------------------------------------ *)
(** ** The timestamp names its instant *)

Lemma app_eq_length_inv {A : Type} (a c b d : list A) :
  List.length a = List.length c -> a ++ b = c ++ d -> a = c /\ b = d.
Proof.
  revert c. induction a as [|x a IH]; intros [|y c] Hl H;
    try discriminate Hl.
  - auto.
  - cbn in H. injection H as -> H. cbn in Hl. injection Hl as Hl.
    destruct (IH c Hl H) as [-> ->]. auto.
Qed.

Lemma decimal_field_sound (w : nat) (v : N) (s : pystr) :
  decimal_field w v s = true -> List.length s = w /\ digits_value s = v.
Proof.
  unfold decimal_field. intros H.
  apply andb_prop in H. destruct H as [H Hv].
  apply andb_prop in H. destruct H as [Hl _].
  apply Nat.eqb_eq in Hl. apply N.eqb_eq in Hv. auto.
Qed.

Lemma valid_datetime_fields (t : DateTime) :
  valid_datetime t = true ->
  decimal_field 4 (year t) (zero_pad 4 (dec (year t))) = true
  /\ decimal_field 2 (month t) (zero_pad 2 (dec (month t))) = true
  /\ decimal_field 2 (day t) (zero_pad 2 (dec (day t))) = true
  /\ decimal_field 2 (hour t) (zero_pad 2 (dec (hour t))) = true
  /\ decimal_field 2 (minute t) (zero_pad 2 (dec (minute t))) = true
  /\ decimal_field 2 (second t) (zero_pad 2 (dec (second t))) = true.
Proof.
  intros H.
  destruct (valid_datetime_bounds t H) as (Hy & Hmo & Hd & Hh & Hmi & Hs).
  repeat split; first [apply four_digits | apply two_digits]; assumption.
Qed.

Ltac split_field H F1 F2 E :=
  apply app_eq_length_inv in H;
  [ destruct H as [E H]
  | rewrite (proj1 (decimal_field_sound _ _ _ F1)),
            (proj1 (decimal_field_sound _ _ _ F2)); reflexivity ].

Ltac same_value F1 F2 E :=
  rewrite <- (proj2 (decimal_field_sound _ _ _ F1)),
          <- (proj2 (decimal_field_sound _ _ _ F2)), E; reflexivity.

(** X11.  For instants with a four-digit year the timestamp always has 19
    characters, and it names the instant to the second: two instants with
    the same timestamp have the same year, month, day, hour, minute and
    second. *)
Theorem timestamp_fixed_width_and_injective (t1 t2 : DateTime) :
  valid_datetime t1 = true ->
  valid_datetime t2 = true ->
  List.length (strftime t1) = 19%nat
  /\ (strftime t1 = strftime t2 -> t1 = t2).
Proof.
  intros V1 V2.
  destruct (valid_datetime_fields t1 V1) as (Y1 & Mo1 & D1 & H1 & Mi1 & S1).
  destruct (valid_datetime_fields t2 V2) as (Y2 & Mo2 & D2 & H2 & Mi2 & S2).
  split.
  - unfold strftime. rewrite !length_app.
    rewrite (proj1 (decimal_field_sound _ _ _ Y1)),
            (proj1 (decimal_field_sound _ _ _ Mo1)),
            (proj1 (decimal_field_sound _ _ _ D1)),
            (proj1 (decimal_field_sound _ _ _ H1)),
            (proj1 (decimal_field_sound _ _ _ Mi1)),
            (proj1 (decimal_field_sound _ _ _ S1)).
    reflexivity.
  - unfold strftime. intros H.
    split_field H Y1 Y2 EY. apply app_inv_head in H.
    split_field H Mo1 Mo2 EMo. apply app_inv_head in H.
    split_field H D1 D2 ED. apply app_inv_head in H.
    split_field H H1 H2 EH. apply app_inv_head in H.
    split_field H Mi1 Mi2 EMi. apply app_inv_head in H.
    assert (year t1 = year t2) by same_value Y1 Y2 EY.
    assert (month t1 = month t2) by same_value Mo1 Mo2 EMo.
    assert (day t1 = day t2) by same_value D1 D2 ED.
    assert (hour t1 = hour t2) by same_value H1 H2 EH.
    assert (minute t1 = minute t2) by same_value Mi1 Mi2 EMi.
    assert (second t1 = second t2) by same_value S1 S2 H.
    destruct t1, t2; cbn in *; congruence.
Qed.

Lemma timestamp_fixed_width_and_injective_witness :
  List.length (strftime sample_time) = 19%nat
  /\ (strftime sample_time = strftime (mkDateTime 2024 3 9 7 5 0) ->
      sample_time = mkDateTime 2024 3 9 7 5 0).
Proof.
  exact (timestamp_fixed_width_and_injective
           sample_time (mkDateTime 2024 3 9 7 5 0) eq_refl eq_refl).
Defined.

(* ------------------------------------------------------------------ *)
(** ** Lines of the log file over a run *)

Lemma newlines_entries_of (env : Env) (evs : list Event) :
  Forall single_line_message (messages_of evs) ->
  forall k,
    newlines (List.concat (entries_of env k evs))
    = List.length (messages_of evs).
Proof.
  induction evs as [|[rc|msg] rest IH]; intros Hall k;
    cbn [entries_of messages_of List.concat List.length] in *.
  - reflexivity.
  - apply IH. exact Hall.
  - inversion Hall as [|m ms [Ht Hp] Hrest]; subst.
    rewrite newlines_app, (newlines_log_entry _ msg Ht Hp), (IH Hrest).
    reflexivity.
Qed.

(** X12.  In a run whose delivered messages all have a topic without line
    feed and a [bytes] payload (or a text payload without line feed), the
    log file gains exactly one line per delivered message: its number of
    line feeds grows by the number of messages. *)
Theorem run_adds_one_line_per_message
        (env : Env) (args : Args) (prior : pystr) :
  install_ok env = true ->
  Forall single_line_message (messages_of (delivered env)) ->
  newlines (log_disk (snd (run env args prior)))
  = (newlines prior + List.length (messages_of (delivered env)))%nat.
Proof.
  intros Hinst Hall. destruct (run_exact env args prior Hinst) as (k & E).
  rewrite E. cbn [snd log_disk].
  rewrite newlines_app, (newlines_entries_of env _ Hall). reflexivity.
Qed.

Lemma run_adds_one_line_per_message_witness :
  newlines (log_disk (snd (run env_interrupted sample_args
                               (lit "old" ++ [LF]))))
  = 3%nat.
Proof.
  refine (run_adds_one_line_per_message env_interrupted sample_args
            (lit "old" ++ [LF]) eq_refl _).
  repeat constructor; intros s H; discriminate H.
Defined.

(** X13.  When [connect] raises an exception, the run never enters the
    loop and never subscribes: the client sees the one [connect] call only,
    the log file is opened and closed with nothing written, its text is
    the prior text, the console ends with the [Error: ] line, and the exit
    status is 1. *)
Theorem run_connect_failure
        (env : Env) (args : Args) (prior : pystr) (e : pystr) :
  install_ok env = true ->
  connect_ending env = Failed e ->
  exists w,
    run env args prior = (Raise (SystemExit 1), w)
    /\ console w = install_lines env ++ [banner args; lit "Error: " ++ e]
    /\ log_disk w = prior
    /\ log_file w = Closed
    /\ file_trace w = [FOpen (log args) (lit "a"); FClose]
    /\ client_trace w = [CConnect (broker args) (port args) 60].
Proof.
  intros Hinst Hc. destruct (run_exact env args prior Hinst) as (k & E).
  unfold try_ending, delivered in E. rewrite Hc in E.
  eexists. split; [exact E|].
  cbn. rewrite app_nil_r. repeat split.
Qed.

Lemma run_connect_failure_witness :
  exists w,
    run (env_with true true (Failed (lit "refused")) [EvMessage msg_text]
                  Normal)
        sample_args (lit "old")
    = (Raise (SystemExit 1), w)
    /\ console w
       = [ CHECK_MARK :: lit " paho-mqtt is already installed";
           lit "Connecting to MQTT broker at host:1883...";
           lit "Error: refused" ]
    /\ log_disk w = lit "old"
    /\ log_file w = Closed
    /\ file_trace w = [FOpen (lit "mqtt.log") (lit "a"); FClose]
    /\ client_trace w = [CConnect (lit "host") 1883 60].
Proof.
  exact (run_connect_failure
           (env_with true true (Failed (lit "refused")) [EvMessage msg_text]
                     Normal)
           sample_args (lit "old") (lit "refused") eq_refl eq_refl).
Defined.
